(** * SEO audit pipeline: a shallow embedding and its verified properties

    The development follows [seo_audit.py] (class [SEOAuditor]) and
    [web_interface.py] (the job manager).  Python dictionaries whose keys
    are fixed by the code become records or association lists in insertion
    order; the result cache is a finite map; the parsed document
    ([self.soup]) is a tree that is threaded through the analyzers as
    explicit state, because one analyzer edits it in place.

    Numbers: Python [int] is [Z]; a [float] is the rational number it
    denotes, in [Q]; a float operation rounds its exact result to the
    nearest binary64 value ([PyFloat.fl]) and [round(_, 1)] returns the
    nearest tenth.  What comes from libraries, the network and the clock
    is gathered in the record [world]. *)

From Stdlib Require Import ZArith QArith Qround List String Ascii Bool Lia.
From Stdlib Require Import DecimalString.
From stdpp Require Import gmap strings.
Import ListNotations.

Set Warnings "-register-all".
Open Scope string_scope.
Open Scope list_scope.

(** ** Python strings *)

Module PyStr.

Definition Z_to_string (z : Z) : string := NilZero.string_of_int (Z.to_int z).

(** [s.startswith(p)] *)
Definition startswith (p s : string) : bool := String.prefix p s.

(** [s.startswith((p1, p2, ...))] *)
Definition startswith_any (ps : list string) (s : string) : bool :=
  existsb (fun p => startswith p s) ps.

(** [needle in hay] on strings: substring test (true for the empty needle). *)
Fixpoint contains (needle hay : string) : bool :=
  String.prefix needle hay ||
  match hay with
  | EmptyString => false
  | String _ rest => contains needle rest
  end.

(** [s[:n]] *)
Definition take (n : nat) (s : string) : string := String.substring 0 n s.

(** [str.isspace] on one character (code points below 256). *)
Definition is_space (c : ascii) : bool :=
  let n := nat_of_ascii c in
  (((9 <=? n) && (n <=? 13)) || ((28 <=? n) && (n <=? 32))
   || (n =? 133) || (n =? 160))%nat.

(** [s.lstrip()], [s.rstrip()], [s.strip()] *)
Fixpoint lstrip (s : string) : string :=
  match s with
  | EmptyString => EmptyString
  | String c rest => if is_space c then lstrip rest else s
  end.

Fixpoint rstrip (s : string) : string :=
  match s with
  | EmptyString => EmptyString
  | String c rest =>
      match rstrip rest with
      | EmptyString => if is_space c then EmptyString else String c EmptyString
      | kept => String c kept
      end
  end.

Definition strip (s : string) : string := rstrip (lstrip s).

(** [s.lower()] on the letters A to Z. *)
Definition lower_char (c : ascii) : ascii :=
  let n := nat_of_ascii c in
  if ((65 <=? n) && (n <=? 90))%nat then ascii_of_nat (n + 32) else c.

Fixpoint lower (s : string) : string :=
  match s with
  | EmptyString => EmptyString
  | String c rest => String (lower_char c) (lower rest)
  end.

Definition is_empty (s : string) : bool :=
  match s with EmptyString => true | _ => false end.

(** [s.split()]: the maximal runs of non-blank characters.  [cur] is
    the run being read. *)
Fixpoint split_from (cur s : string) : list string :=
  match s with
  | EmptyString => if is_empty cur then [] else [cur]
  | String c rest =>
      if is_space c
      then (if is_empty cur then split_from "" rest
            else cur :: split_from "" rest)
      else split_from (cur +:+ String c "") rest
  end.

Definition split (s : string) : list string := split_from "" s.

Definition is_terminator (c : ascii) : bool :=
  ((c =? ".") || (c =? "!") || (c =? "?"))%char.

(** [re.split(r'[.!?]+', s)]: the pieces between runs of terminators.
    [inrun] tells whether the previous character was a terminator. *)
Fixpoint re_split_from (inrun : bool) (cur s : string) : list string :=
  match s with
  | EmptyString => [cur]
  | String c rest =>
      if is_terminator c
      then (if inrun then re_split_from true "" rest
            else cur :: re_split_from true "" rest)
      else re_split_from false (cur +:+ String c "") rest
  end.

Definition re_split_terminators (s : string) : list string :=
  re_split_from false "" s.

(** [len(re.findall(pat, s))] for a non-empty literal pattern:
    non-overlapping occurrences, scanned from the left.  [skip] is the
    number of characters still covered by the last match. *)
Fixpoint count_matches_from (skip : nat) (pat s : string) : nat :=
  match s with
  | EmptyString => 0
  | String _ rest =>
      match skip with
      | S k => count_matches_from k pat rest
      | O =>
          if String.prefix pat s
          then S (count_matches_from (String.length pat - 1) pat rest)
          else count_matches_from 0 pat rest
      end
  end.

Definition count_matches (pat s : string) : nat := count_matches_from 0 pat s.

End PyStr.

(** ** JSON-like values and dictionaries *)

Inductive value : Type :=
| VNone
| VBool (b : bool)
| VInt (z : Z)
| VFloat (q : Q)
| VStr (s : string)
| VList (l : list value)
| VDict (d : list (string * value)).

(** A [dict] keeps its keys in insertion order, as Python does. *)
Definition dict : Type := list (string * value).

Module Dict.

Fixpoint get {A : Type} (k : string) (d : list (string * A)) : option A :=
  match d with
  | [] => None
  | (k', v) :: rest => if String.eqb k k' then Some v else get k rest
  end.

(** [d[k] = v]: overwrite in place, or append a new key. *)
Fixpoint set {A : Type} (k : string) (v : A) (d : list (string * A))
  : list (string * A) :=
  match d with
  | [] => [(k, v)]
  | (k', v') :: rest =>
      if String.eqb k k' then (k, v) :: rest else (k', v') :: set k v rest
  end.

Definition values {A : Type} (d : list (string * A)) : list A := map snd d.

End Dict.

(** ** The audit report ([self.audit_results]) *)

Record audit_results : Type := mk_results {
  url : string;
  domain : string;
  audit_timestamp : string;
  technical_seo : dict;
  on_page_seo : dict;
  off_page_seo : dict;
  user_experience : dict;
  security_performance : dict;
  pagespeed_insights : dict;
  scores : option (list (string * Q));  (* key [scores], absent until computed *)
  error : option string                  (* key [error], absent unless the audit aborted *)
}.

(** ** Python floats: one division followed by [round(_, 1)] *)

Module PyFloat.

Local Open Scope Q_scope.

(** Nearest integer, ties to even. *)
Definition round_half_even (q : Q) : Z :=
  let f := Qfloor q in
  match Qcompare (q - inject_Z f) (1 # 2) with
  | Lt => f
  | Gt => (f + 1)%Z
  | Eq => if Z.even f then f else (f + 1)%Z
  end.

(** [floor(log2(a / b))] *)
Definition floor_log2 (a b : positive) : Z :=
  let e0 := (Z.log2 (Zpos a) - Z.log2 (Zpos b))%Z in
  if (0 <=? e0)%Z
  then (if (Zpos b * 2 ^ e0 <=? Zpos a)%Z then e0 else e0 - 1)%Z
  else (if (Zpos b <=? Zpos a * 2 ^ (- e0))%Z then e0 else e0 - 1)%Z.

(** [q * 2^k] *)
Definition scale2 (q : Q) (k : Z) : Q :=
  if (0 <=? k)%Z then q * inject_Z (2 ^ k) else q / inject_Z (2 ^ (- k)).

(** The binary64 value nearest to a positive rational [a / b]
    (53-bit significand, ties to even; the exponent range, which
    quotients of counts never leave, is not modelled). *)
Definition nearest_double (a b : positive) : Q :=
  let e := floor_log2 a b in
  scale2 (inject_Z (round_half_even (scale2 (Zpos a # b) (52 - e)))) (e - 52).

(** The double produced by a true division whose exact quotient is [q]. *)
Definition fl (q : Q) : Q :=
  let q' := Qred q in
  match Qnum q' with
  | Z0 => 0
  | Zpos a => nearest_double a (Qden q')
  | Zneg a => - nearest_double a (Qden q')
  end.

(** [round(x, 1)] on the exact value of the double [x]: the nearest
    tenth, ties to the even tenth.  The result stands for the double
    nearest to that tenth. *)
Definition round1 (x : Q) : Q := round_half_even (x * 10) # 10.

(** [round(a / b, 1)] as a function of the exact quotient. *)
Definition div_round1 (q : Q) : Q := round1 (fl q).

End PyFloat.

(** ** Score aggregation ([_calculate_scores]) *)

Module Scoring.

Local Open Scope Q_scope.

Definition value_is_str (v : value) (s : string) : bool :=
  match v with VStr s' => String.eqb s' s | _ => false end.

(** One iteration of the loop over [technical.items()]; the accumulator
    is [(tech_score, tech_items)]. *)
Definition tally_step (acc : Z * Z) (kv : string * value) : Z * Z :=
  match snd kv with
  | VDict d =>
      match Dict.get "status" d with
      | Some st =>
          let items := (snd acc + 1)%Z in
          if value_is_str st "good" then ((fst acc + 100)%Z, items)
          else if value_is_str st "needs_improvement" then ((fst acc + 50)%Z, items)
          else (fst acc, items)
      | None => acc
      end
  | _ => acc
  end.

Definition tally (cat : dict) : Z * Z := fold_left tally_step cat (0%Z, 0%Z).

(** [round(tech_score / tech_items if tech_items > 0 else 0, 1)] *)
Definition category_score (cat : dict) : Q :=
  let '(score, items) := tally cat in
  PyFloat.div_round1 (if (0 <? items)%Z then inject_Z score / inject_Z items else 0).

Definition initial_scores : list (string * Q) :=
  [ ("technical_seo_score", 0); ("on_page_seo_score", 0);
    ("off_page_seo_score", 0); ("user_experience_score", 0);
    ("security_performance_score", 0); ("overall_score", 0) ].

Definition Qsum (l : list Q) : Q := fold_right Qplus 0 l.

Definition Qpositive (q : Q) : bool := negb (Qle_bool q 0).
Definition Qnonzero (q : Q) : bool := negb (Qeq_bool q 0).

(** [round(sum(vals) / len([s for s in vals if s > 0]) if any(vals) else 0, 1)].
    The sum is taken exactly: in [_calculate_scores] at most one entry
    is not 0, so the float additions are exact there. *)
Definition overall_of (vals : list Q) : Q :=
  PyFloat.div_round1 (if existsb Qnonzero vals
          then Qsum vals / inject_Z (Z.of_nat (length (List.filter Qpositive vals)))
          else 0).

(** [_calculate_scores].  Only the technical category is tallied; the
    source leaves the other four entries at their initial 0 behind the
    comment "Similar calculations for other categories...".  Neither
    division can fail (both are guarded), so the [except] branch that
    would add [calculation_error] is never taken. *)
Definition _calculate_scores (r : audit_results) : audit_results :=
  let scores0 := initial_scores in
  let scores1 := Dict.set "technical_seo_score" (category_score (technical_seo r)) scores0 in
  let scores2 := Dict.set "overall_score" (overall_of (Dict.values scores1)) scores1 in
  mk_results (url r) (domain r) (audit_timestamp r) (technical_seo r)
    (on_page_seo r) (off_page_seo r) (user_experience r)
    (security_performance r) (pagespeed_insights r) (Some scores2) (error r).

(** The score stored under [key] once the block exists (0 otherwise). *)
Definition score_of (key : string) (r : audit_results) : Q :=
  match scores r with
  | Some s => match Dict.get key s with Some q => q | None => 0 end
  | None => 0
  end.

(** *** The aggregation rule in the words of the specification *)

Definition status_points (st : value) : Z :=
  if value_is_str st "good" then 100%Z
  else if value_is_str st "needs_improvement" then 50%Z
  else 0%Z.

(** The status values of the Findings of a category that carry one. *)
Definition statuses (cat : dict) : list value :=
  flat_map (fun kv => match snd kv with
                      | VDict d => match Dict.get "status" d with
                                   | Some st => [st]
                                   | None => []
                                   end
                      | _ => []
                      end) cat.

Definition Zsum (l : list Z) : Z := fold_right Z.add 0%Z l.

(** Mean of the contributing points, 0 when nothing contributes. *)
Definition mean_points (cat : dict) : Q :=
  match statuses cat with
  | [] => 0
  | sts => inject_Z (Zsum (map status_points sts)) / inject_Z (Z.of_nat (length sts))
  end.

(** Mean of the strictly positive entries, 0 when there is none. *)
Definition mean_positive (vals : list Q) : Q :=
  match List.filter Qpositive vals with
  | [] => 0
  | pos => Qsum pos / inject_Z (Z.of_nat (length pos))
  end.

Definition category_keys : list string :=
  [ "technical_seo_score"; "on_page_seo_score"; "off_page_seo_score";
    "user_experience_score"; "security_performance_score" ].

Definition category_scores (r : audit_results) : list Q :=
  map (fun k => score_of k r) category_keys.

End Scoring.

(** ** The parsed document ([self.soup]) *)

Inductive node : Type :=
| Text (s : string)
| Tag (name : string) (attrs : list (string * string)) (children : list node).

(** The [BeautifulSoup] object: the top-level nodes of the document. *)
Definition soup : Type := list node.

Module Soup.

Definition name_is (nm : string) (n : node) : bool :=
  match n with Tag nm' _ _ => String.eqb nm' nm | Text _ => false end.

Definition name_in (nms : list string) (n : node) : bool :=
  existsb (fun nm => name_is nm n) nms.

(** [tag.get(k)] *)
Definition attr (k : string) (n : node) : option string :=
  match n with Tag _ ats _ => Dict.get k ats | Text _ => None end.

(** The filter [k=True]: the attribute is present. *)
Definition has_attr (k : string) (n : node) : bool :=
  match attr k n with Some _ => true | None => false end.

(** The filter [k=v]: the attribute is present with that value. *)
Definition attr_is (k v : string) (n : node) : bool :=
  match attr k n with Some v' => String.eqb v' v | None => false end.

(** A tag followed by every tag below it, in document order. *)
Fixpoint tags_of (n : node) : list node :=
  match n with
  | Text _ => []
  | Tag _ _ cs => n :: flat_map tags_of cs
  end.

Definition children (n : node) : list node :=
  match n with Tag _ _ cs => cs | Text _ => [] end.

(** [soup.find_all(...)] with the filter [p]. *)
Definition find_all (p : node -> bool) (s : soup) : list node :=
  List.filter p (flat_map tags_of s).

(** [soup.find(...)]: the first match, or [None]. *)
Definition find (p : node -> bool) (s : soup) : option node :=
  head (find_all p s).

(** [tag.get_text()]: every string below the node, concatenated. *)
Fixpoint get_text (n : node) : string :=
  match n with
  | Text s => s
  | Tag _ _ cs => String.concat "" (map get_text cs)
  end.

Definition text (s : soup) : string := String.concat "" (map get_text s).

(** [tag.string]: the string of an only child, looking through a chain
    of only-child tags; [None] otherwise. *)
Fixpoint string_of (n : node) : option string :=
  match n with
  | Text s => Some s
  | Tag _ _ [c] => string_of c
  | Tag _ _ _ => None
  end.

(** [for t in soup(names): t.decompose()]: every tag with one of the
    names is removed from the tree, with all it contains. *)
Fixpoint prune (names : list string) (n : node) : list node :=
  match n with
  | Text _ => [n]
  | Tag nm ats cs =>
      if existsb (String.eqb nm) names then []
      else [Tag nm ats (flat_map (prune names) cs)]
  end.

Definition decompose_all (names : list string) (s : soup) : soup :=
  flat_map (prune names) s.

(** [str(soup)]: start tag with its attributes, children, end tag;
    strings are written as they are (the entity substitution of the
    output formatter neither creates nor destroys an occurrence of
    [@media], which is all this serialisation is searched for). *)
Definition render_attr (kv : string * string) : string :=
  " " +:+ fst kv +:+ "=" +:+ String (ascii_of_nat 34) (snd kv)
      +:+ String (ascii_of_nat 34) "".

Fixpoint render (n : node) : string :=
  match n with
  | Text s => s
  | Tag nm ats cs =>
      "<" +:+ nm +:+ String.concat "" (map render_attr ats) +:+ ">"
      +:+ String.concat "" (map render cs) +:+ "</" +:+ nm +:+ ">"
  end.

Definition to_string (s : soup) : string := String.concat "" (map render s).

(** Number of tags of the tree that satisfy [p], counted structurally. *)
Fixpoint count_tags (p : node -> bool) (n : node) : nat :=
  match n with
  | Text _ => 0
  | Tag _ _ cs =>
      (if p n then 1 else 0) + list_sum (map (count_tags p) cs)
  end.

Definition count (p : node -> bool) (s : soup) : nat :=
  list_sum (map (count_tags p) s).

End Soup.

(** ** Exceptions and the shared document as explicit state *)

Inductive result (A : Type) : Type :=
| Ok (a : A)
| Raise (msg : string).   (* an exception [e], kept as [str(e)] *)

Arguments Ok {A} a.
Arguments Raise {A} msg.

(** A method of the auditor: it may raise, and it may edit [self.soup]. *)
Definition M (A : Type) : Type := soup -> result A * soup.

Definition ret {A : Type} (a : A) : M A := fun s => (Ok a, s).

Definition bind {A B : Type} (m : M A) (k : A -> M B) : M B :=
  fun s => match m s with
           | (Ok a, s') => k a s'
           | (Raise e, s') => (Raise e, s')
           end.

(** A computation that only reads the document. *)
Definition reads {A : Type} (f : soup -> A) : M A := fun s => (Ok (f s), s).

Definition lift {A : Type} (r : result A) : M A := fun s => (r, s).

Declare Scope py_scope.
Delimit Scope py_scope with py.
Notation "x <- m ;; k" := (bind m (fun x => k))
  (at level 100, m at next level, right associativity) : py_scope.

(** ** The outside world *)

Record response : Type := mk_response {
  status_code : Z;
  headers : list (string * string);
  content : string;       (* the body handed to the parser *)
  text : string;          (* the decoded body *)
  elapsed : value         (* the time the request took *)
}.

(** The fields of [self] that are set once per audit. *)
Record auditor : Type := mk_auditor {
  self_url : string;
  self_domain : string;
  self_response : response;
  pagespeed_api_key : option string
}.

(** What a registration lookup gives: the age of the domain in days,
    [(datetime.now() - creation_date).days], when a creation date is
    known, and the registrar. *)
Record whois_record : Type := mk_whois {
  creation_age_days : option Z;
  registrar : value
}.

(** Everything the auditor obtains from libraries, the network and the
    clock.  The two external collaborators, the registration lookup and
    the PageSpeed service, are kept as functions of their arguments;
    [pagespeed_data] is the dictionary [_get_pagespeed_data] returns (it
    catches every exception itself). *)
Record world : Type := mk_world {
  now_iso : string;                              (* [datetime.now().isoformat()] *)
  measured_response_time : Q;                    (* [time.time() - start_time] *)
  session_get : string -> result response;       (* [self.session.get(url, timeout=..)] *)
  session_head : string -> result Z;             (* status code of [self.session.head(..)] *)
  ssl_certificate_ok : string -> bool;           (* [_check_ssl_certificate] for a url *)
  urljoin : string -> string -> string;          (* [urllib.parse.urljoin] *)
  html_parser : string -> soup;                  (* [BeautifulSoup(content, 'html.parser')] *)
  json_loads : option string -> result value;    (* [json.loads] *)
  whois : string -> result whois_record;         (* [whois.whois(domain)] and the age *)
  pagespeed_data : string -> string -> string -> dict   (* url, key, strategy *)
}.

(** [urlparse(url).netloc]: after a scheme and [//], up to the first of
    [/], [?] and [#]. *)
Module Url.

Definition is_scheme_char (c : ascii) : bool :=
  let n := nat_of_ascii c in
  (((97 <=? n) && (n <=? 122)) || ((65 <=? n) && (n <=? 90))
   || ((48 <=? n) && (n <=? 57))
   || (n =? 43) || (n =? 45) || (n =? 46))%nat.

(** What follows the scheme and its colon, when the url starts with one. *)
Fixpoint after_scheme (s : string) : option string :=
  match s with
  | EmptyString => None
  | String c rest =>
      if (c =? ":")%char then Some rest
      else if is_scheme_char c then after_scheme rest
      else None
  end.

Definition is_letter (c : ascii) : bool :=
  let n := nat_of_ascii c in
  (((97 <=? n) && (n <=? 122)) || ((65 <=? n) && (n <=? 90)))%nat.

Definition strip_scheme (s : string) : string :=
  match s with
  | String c _ =>
      if is_letter c
      then match after_scheme s with Some rest => rest | None => s end
      else s
  | EmptyString => s
  end.

Fixpoint until_delim (s : string) : string :=
  match s with
  | EmptyString => EmptyString
  | String c rest =>
      if ((c =? "/") || (c =? "?") || (c =? "#"))%char then EmptyString
      else String c (until_delim rest)
  end.

Definition netloc (u : string) : string :=
  match strip_scheme u with
  | String "/" (String "/" rest) => until_delim rest
  | _ => EmptyString
  end.

End Url.

(** ** The analyzers of [SEOAuditor] *)

Definition vopt (o : option string) : value :=
  match o with Some s => VStr s | None => VNone end.

Definition vnat (n : nat) : value := VInt (Z.of_nat n).

Definition nat_to_string (n : nat) : string := PyStr.Z_to_string (Z.of_nat n).

Definition Qltb (a b : Q) : bool := negb (Qle_bool b a).

Module Auditor.

Section Methods.

Variable W : world.
Variable A : auditor.

Local Open Scope py_scope.

(** *** Technical SEO *)

Definition response_time : M value :=
  let t := measured_response_time W in
  ret (VDict
    [ ("value", VFloat t);
      ("status", VStr (if Qltb t 1%Q then "good"
                       else if Qltb t 3%Q then "needs_improvement" else "poor"));
      ("recommendation", VStr (if Qltb 1%Q t then "Optimize server response time"
                               else "Good response time")) ]).

Definition https_ssl : M value :=
  let is_https := PyStr.startswith "https://" (self_url A) in
  ret (VDict
    [ ("is_https", VBool is_https);
      ("ssl_valid", VBool (ssl_certificate_ok W (self_url A)));
      ("status", VStr (if is_https then "good" else "poor"));
      ("recommendation", VStr (if negb is_https
                               then "Ensure HTTPS is properly implemented"
                               else "HTTPS properly implemented")) ]).

Definition meta_named (nm : string) (n : node) : bool :=
  Soup.name_is "meta" n && Soup.attr_is "name" nm n.

Definition mobile_friendly : M value :=
  reads (fun s =>
    let viewport_meta := Soup.find (meta_named "viewport") s in
    let has_viewport := match viewport_meta with Some _ => true | None => false end in
    VDict
      [ ("has_viewport_meta", VBool has_viewport);
        ("viewport_content",
          match viewport_meta with
          | Some m => vopt (Soup.attr "content" m)
          | None => VNone
          end);
        ("status", VStr (if has_viewport then "good" else "poor"));
        ("recommendation", VStr (if negb has_viewport
                                 then "Add viewport meta tag for mobile optimization"
                                 else "Viewport meta tag found")) ]).

Definition indexability : M value :=
  reads (fun s =>
    let robots_content :=
      match Soup.find (meta_named "robots") s with
      | Some m => PyStr.lower (match Soup.attr "content" m with
                               | Some c => c
                               | None => ""
                               end)
      | None => ""
      end in
    let noindex := PyStr.contains "noindex" robots_content in
    let nofollow := PyStr.contains "nofollow" robots_content in
    VDict
      [ ("robots_meta_tag", VStr (if PyStr.is_empty robots_content then "none"
                                  else robots_content));
        ("allows_indexing", VBool (negb noindex));
        ("allows_following", VBool (negb nofollow));
        ("status", VStr (if negb noindex then "good" else "poor"));
        ("recommendation", VStr (if noindex then "Remove noindex directive"
                                 else "Page allows indexing")) ]).

Definition xml_sitemap : M value :=
  let sitemap_url := urljoin W (self_url A) "/sitemap.xml" in
  sitemap_response <- lift (session_get W sitemap_url) ;;
  let has_sitemap := (status_code sitemap_response =? 200)%Z in
  ret (VDict
    [ ("sitemap_url", VStr sitemap_url);
      ("exists", VBool has_sitemap);
      ("status", VStr (if has_sitemap then "good" else "needs_improvement"));
      ("recommendation", VStr (if negb has_sitemap
                               then "Create and submit XML sitemap"
                               else "XML sitemap found")) ]).

Definition robots_txt : M value :=
  let robots_url := urljoin W (self_url A) "/robots.txt" in
  robots_response <- lift (session_get W robots_url) ;;
  let has_robots := (status_code robots_response =? 200)%Z in
  ret (VDict
    [ ("robots_url", VStr robots_url);
      ("exists", VBool has_robots);
      ("content", if has_robots then VStr (PyStr.take 500 (text robots_response))
                  else VNone);
      ("status", VStr (if has_robots then "good" else "needs_improvement"));
      ("recommendation", VStr (if negb has_robots then "Create robots.txt file"
                               else "Robots.txt found")) ]).

(** [rel] is a multi-valued attribute: the filter matches one of its
    blank-separated values, or the whole of it. *)
Definition rel_is (v : string) (n : node) : bool :=
  match Soup.attr "rel" n with
  | Some a => String.eqb a v || existsb (fun t => String.eqb t v) (PyStr.split a)
  | None => false
  end.

Definition canonical_tags : M value :=
  reads (fun s =>
    let canonical_tag :=
      Soup.find (fun n => Soup.name_is "link" n && rel_is "canonical" n) s in
    let has_canonical := match canonical_tag with Some _ => true | None => false end in
    VDict
      [ ("has_canonical", VBool has_canonical);
        ("canonical_url",
          match canonical_tag with
          | Some t => vopt (Soup.attr "href" t)
          | None => VNone
          end);
        ("status", VStr (if has_canonical then "good" else "needs_improvement"));
        ("recommendation",
          VStr (if negb has_canonical
                then "Add canonical tag to prevent duplicate content issues"
                else "Canonical tag implemented")) ]).

(** [_analyze_structured_data] *)

Definition is_json_ld (n : node) : bool :=
  Soup.name_is "script" n && Soup.attr_is "type" "application/ld+json" n.

Definition dict_get_default (k : string) (dflt : value) (d : dict) : value :=
  match Dict.get k d with Some v => v | None => dflt end.

(** The body of the inner [try]: [None] stands for the bare [except:
    pass], taken when [json.loads] raises and when the parsed value
    is not an object (it has no [get]). *)
Definition json_ld_entry (script : node) : option value :=
  match json_loads W (Soup.string_of script) with
  | Ok (VDict data) =>
      Some (VDict [ ("type", dict_get_default "@type" (VStr "Unknown") data);
                    ("context", dict_get_default "@context" (VStr "Unknown") data) ])
  | _ => None
  end.

Definition _analyze_structured_data (s : soup) : dict :=
  let json_ld_scripts := Soup.find_all is_json_ld s in
  let microdata_items := Soup.find_all (Soup.has_attr "itemtype") s in
  let rdfa_props := Soup.find_all (Soup.has_attr "property") s in
  let total_schemas :=
    (length json_ld_scripts + length microdata_items + length rdfa_props)%nat in
  [ ("json_ld_scripts", VList (omap json_ld_entry json_ld_scripts));
    ("microdata_items",
      VList (map (fun item => vopt (Soup.attr "itemtype" item)) microdata_items));
    ("rdfa_properties",
      VList (map (fun prop => vopt (Soup.attr "property" prop)) (firstn 10 rdfa_props)));
    ("total_schemas", vnat total_schemas);
    ("status", VStr (if (0 <? total_schemas)%nat then "good" else "needs_improvement"));
    ("recommendation", VStr (if (total_schemas =? 0)%nat then "Add structured data markup"
                             else "Structured data found")) ].

Definition structured_data : M value :=
  reads (fun s => VDict (_analyze_structured_data s)).

(** [_check_broken_links].  The four counters of the [broken_links]
    dictionary while the loop runs. *)

Record probe : Type := mk_probe {
  internal : list value;
  external : list value;
  total_checked : Z;
  broken_count : Z
}.

Definition link_filter (n : node) : bool :=
  Soup.name_is "a" n && Soup.has_attr "href" n.

(** One iteration of [for link in links[:20]]. *)
Definition probe_step (acc : probe) (link : node) : probe :=
  match Soup.attr "href" link with
  | None => acc
  | Some href =>
      if PyStr.is_empty href || PyStr.startswith_any ["#"; "mailto:"; "tel:"] href
      then acc
      else
        let full_url := urljoin W (self_url A) href in
        let checked := (total_checked acc + 1)%Z in
        match session_head W full_url with
        | Ok code =>
            if (400 <=? code)%Z then
              let link_data :=
                VDict [ ("url", VStr full_url);
                        ("status_code", VInt code);
                        ("text", VStr (PyStr.take 50 (Soup.get_text link))) ] in
              if PyStr.contains (self_domain A) full_url
              then mk_probe (internal acc ++ [link_data]) (external acc)
                     checked (broken_count acc + 1)
              else mk_probe (internal acc) (external acc ++ [link_data])
                     checked (broken_count acc + 1)
            else mk_probe (internal acc) (external acc) checked (broken_count acc)
        | Raise _ =>
            mk_probe (internal acc) (external acc) checked (broken_count acc + 1)
        end
  end.

Definition probe_links (s : soup) : probe :=
  fold_left probe_step (firstn 20 (Soup.find_all link_filter s))
    (mk_probe [] [] 0 0).

Definition _check_broken_links (s : soup) : dict :=
  let p := probe_links s in
  [ ("internal", VList (internal p));
    ("external", VList (external p));
    ("total_checked", VInt (total_checked p));
    ("broken_count", VInt (broken_count p));
    ("status", VStr (if (broken_count p =? 0)%Z then "good" else "needs_improvement"));
    ("recommendation", VStr (if (0 <? broken_count p)%Z then "Fix broken links"
                             else "No broken links found")) ].

Definition broken_links : M value :=
  reads (fun s => VDict (_check_broken_links s)).

(** *** On-page SEO *)

Definition in_range (lo hi n : nat) : bool := ((lo <=? n) && (n <=? hi))%nat.

Definition title_tags : M value :=
  reads (fun s =>
    let title_text :=
      match Soup.find (Soup.name_is "title") s with
      | Some t => PyStr.strip (Soup.get_text t)
      | None => ""
      end in
    let title_length := String.length title_text in
    VDict
      [ ("title", VStr title_text);
        ("length", vnat title_length);
        ("optimal_length", VBool (in_range 30 60 title_length));
        ("status", VStr (if in_range 30 60 title_length then "good"
                         else "needs_improvement"));
        ("recommendation",
          VStr ("Title length is " +:+ nat_to_string title_length
                +:+ " characters. Optimal range is 30-60 characters.")) ]).

Definition meta_description : M value :=
  reads (fun s =>
    let desc_text :=
      match Soup.find (meta_named "description") s with
      | Some m => PyStr.strip (match Soup.attr "content" m with
                               | Some c => c
                               | None => ""
                               end)
      | None => ""
      end in
    let desc_length := String.length desc_text in
    VDict
      [ ("description", VStr desc_text);
        ("length", vnat desc_length);
        ("exists", VBool (negb (PyStr.is_empty desc_text)));
        ("optimal_length", VBool (in_range 120 160 desc_length));
        ("status", VStr (if in_range 120 160 desc_length then "good"
                         else "needs_improvement"));
        ("recommendation",
          VStr ("Meta description length is " +:+ nat_to_string desc_length
                +:+ " characters. Optimal range is 120-160 characters.")) ]).

(** [_analyze_heading_structure] *)
Definition heading_texts (level : string) (s : soup) : list string :=
  map (fun t => PyStr.take 100 (PyStr.strip (Soup.get_text t)))
      (Soup.find_all (Soup.name_is level) s).

Definition _analyze_heading_structure (s : soup) : dict :=
  let headings :=
    map (fun level => (level, VList (map VStr (heading_texts level s))))
        ["h1"; "h2"; "h3"; "h4"; "h5"; "h6"] in
  let h1_count := length (heading_texts "h1" s) in
  let has_h2 := (0 <? length (heading_texts "h2" s))%nat in
  let has_proper_structure := (h1_count =? 1)%nat && has_h2 in
  [ ("headings", VDict headings);
    ("h1_count", vnat h1_count);
    ("has_single_h1", VBool (h1_count =? 1)%nat);
    ("has_h2_tags", VBool has_h2);
    ("proper_hierarchy", VBool has_proper_structure);
    ("status", VStr (if has_proper_structure then "good" else "needs_improvement"));
    ("recommendation",
      VStr (if negb has_proper_structure
            then "Ensure single H1 and proper heading hierarchy"
            else "Good heading structure")) ].

(** [_analyze_images] *)
Definition attr_or_empty (k : string) (n : node) : string :=
  match Soup.attr k n with Some v => v | None => "" end.

Definition has_alt (img : node) : bool := negb (PyStr.is_empty (attr_or_empty "alt" img)).

Definition image_sample (img : node) : value :=
  let alt := attr_or_empty "alt" img in
  VDict
    [ ("src", VStr (PyStr.take 100 (attr_or_empty "src" img)));
      ("has_alt", VBool (negb (PyStr.is_empty alt)));
      ("alt_text", VStr (PyStr.take 50 alt));
      ("loading", VStr (attr_or_empty "loading" img));
      ("is_lazy_loaded", VBool (Soup.attr_is "loading" "lazy" img)) ].

Definition _analyze_images (s : soup) : dict :=
  let images := Soup.find_all (Soup.name_is "img") s in
  let total_images := length images in
  let images_with_alt := length (List.filter has_alt images) in
  let alt_percentage : Q :=
    if (0 <? total_images)%nat
    then PyFloat.fl (PyFloat.fl (inject_Z (Z.of_nat images_with_alt)
                                 / inject_Z (Z.of_nat total_images)) * 100)%Q
    else 0%Q in
  [ ("total_images", vnat total_images);
    ("images_with_alt", vnat images_with_alt);
    ("alt_percentage", VFloat (PyFloat.round1 alt_percentage));
    ("sample_analysis", VList (map image_sample (firstn 10 images)));
    ("status", VStr (if Qle_bool 90%Q alt_percentage then "good"
                     else "needs_improvement"));
    ("recommendation",
      VStr (if Qltb alt_percentage 90%Q
            then "Add alt text to " +:+ nat_to_string (total_images - images_with_alt)
                 +:+ " images"
            else "Good image optimization")) ].

(** [_analyze_internal_links] *)
Definition is_internal_href (link : node) : bool :=
  let href := attr_or_empty "href" link in
  negb (PyStr.is_empty href)
  && negb (PyStr.startswith_any ["http://"; "https://"; "mailto:"; "tel:"; "#"] href).

Definition internal_link_entry (link : node) : value :=
  VDict [ ("href", VStr (attr_or_empty "href" link));
          ("text", VStr (PyStr.take 50 (PyStr.strip (Soup.get_text link))));
          ("title", VStr (attr_or_empty "title" link)) ].

Definition _analyze_internal_links (s : soup) : dict :=
  let internal_links :=
    map internal_link_entry (List.filter is_internal_href (Soup.find_all link_filter s)) in
  let n := length internal_links in
  [ ("total_internal_links", vnat n);
    ("sample_links", VList (firstn 10 internal_links));
    ("status", VStr (if (5 <? n)%nat then "good" else "needs_improvement"));
    ("recommendation", VStr (if (n <=? 5)%nat
                             then "Add more internal links for better navigation"
                             else "Good internal linking")) ].

(** [_analyze_content]: the only method that writes to [self.soup];
    the [script] and [style] elements are removed from the shared
    tree, not from a copy. *)
Definition content_finding (s : soup) : dict :=
  let text := Soup.text s in
  let word_count := length (PyStr.split text) in
  let sentence_count :=
    length (List.filter (fun p => negb (PyStr.is_empty (PyStr.strip p)))
                   (PyStr.re_split_terminators text)) in
  let avg_sentence_length : Q :=
    if (0 <? sentence_count)%nat
    then PyFloat.fl (inject_Z (Z.of_nat word_count)
                     / inject_Z (Z.of_nat sentence_count))%Q
    else 0%Q in
  [ ("word_count", vnat word_count);
    ("sentence_count", vnat sentence_count);
    ("avg_sentence_length", VFloat (PyFloat.round1 avg_sentence_length));
    ("estimated_reading_time",
      VFloat (PyFloat.div_round1 (inject_Z (Z.of_nat word_count) / 200)%Q));
    ("status", VStr (if (300 <=? word_count)%nat then "good" else "needs_improvement"));
    ("recommendation", VStr (if (word_count <? 300)%nat
                             then "Add more content for better SEO"
                             else "Good content length")) ].

Definition _analyze_content : M dict :=
  fun s =>
    let s' := Soup.decompose_all ["script"; "style"] s in
    (Ok (content_finding s'), s').

(** *** User experience: [_check_responsive_design] *)

Definition _check_responsive_design (s : soup) : dict :=
  let viewport_meta := Soup.find (meta_named "viewport") s in
  let has_viewport := match viewport_meta with Some _ => true | None => false end in
  let css_media_queries := PyStr.count_matches "@media" (Soup.to_string s) in
  [ ("has_viewport_meta", VBool has_viewport);
    ("viewport_content",
      match viewport_meta with
      | Some m => vopt (Soup.attr "content" m)
      | None => VNone
      end);
    ("css_media_queries_found", vnat css_media_queries);
    ("status", VStr (if has_viewport && (0 <? css_media_queries)%nat then "good"
                     else "needs_improvement"));
    ("recommendation", VStr (if negb has_viewport then "Implement responsive design"
                             else "Responsive design indicators found")) ].

(** *** Off-page SEO *)

(** [_get_domain_info]: its own bare [except] turns any failure into a
    fixed message. *)
Definition _get_domain_info : dict :=
  match whois W (self_domain A) with
  | Ok domain_whois =>
      let age_days := match creation_age_days domain_whois with
                      | Some d => d
                      | None => 0%Z
                      end in
      [ ("domain_age_days", VInt age_days);
        ("domain_age_years",
          VFloat (PyFloat.div_round1 (inject_Z age_days / (1461 # 4))%Q));
        ("registrar", registrar domain_whois);
        ("status", VStr (if (365 <? age_days)%Z then "good" else "needs_improvement"));
        ("recommendation", VStr (if (age_days <? 365)%Z
                                 then "Domain age affects trust signals"
                                 else "Established domain")) ]
  | Raise _ => [ ("error", VStr "Could not retrieve domain information") ]
  end.

(** [_check_social_signals] *)
Definition meta_with (k v : string) (n : node) : bool :=
  Soup.name_is "meta" n && Soup.attr_is k v n.

Definition social_filters : list (string * (node -> bool)) :=
  [ ("og_title", meta_with "property" "og:title");
    ("og_description", meta_with "property" "og:description");
    ("og_image", meta_with "property" "og:image");
    ("og_url", meta_with "property" "og:url");
    ("twitter_card", meta_with "name" "twitter:card");
    ("twitter_title", meta_with "name" "twitter:title");
    ("twitter_description", meta_with "name" "twitter:description");
    ("twitter_image", meta_with "name" "twitter:image") ].

Definition is_truthy_str (v : value) : bool :=
  match v with VStr s => negb (PyStr.is_empty s) | _ => false end.

Definition _check_social_signals (s : soup) : dict :=
  let present_tags : dict :=
    map (fun kf => (fst kf,
                    match Soup.find (snd kf) s with
                    | Some tag => vopt (Soup.attr "content" tag)
                    | None => VNone
                    end)) social_filters in
  let tags_count := length (List.filter is_truthy_str (Dict.values present_tags)) in
  let total := length social_filters in
  [ ("social_meta_tags", VDict present_tags);
    ("tags_present", vnat tags_count);
    ("total_possible", vnat total);
    ("status", VStr (if (6 <=? tags_count)%nat then "good" else "needs_improvement"));
    ("recommendation",
      VStr ("Add " +:+ nat_to_string (total - tags_count)
            +:+ " missing social media meta tags")) ].

(** [_basic_backlink_analysis] *)
Definition _basic_backlink_analysis : dict :=
  [ ("note", VStr "Comprehensive backlink analysis requires specialized tools like Ahrefs, SEMrush, or Moz");
    ("recommendations",
      VList [ VStr "Use Google Search Console to monitor backlinks";
              VStr "Build high-quality, relevant backlinks";
              VStr "Monitor for toxic backlinks and disavow if necessary";
              VStr "Create linkable content assets" ]);
    ("status", VStr "requires_external_tools") ].

(** *** User experience *)

(** [_analyze_navigation]: the anchors below every [nav] and [menu]
    element (an anchor below two of them is listed twice). *)
Definition nav_link_entry (link : node) : value :=
  VDict [ ("text", VStr (PyStr.strip (Soup.get_text link)));
          ("href", vopt (Soup.attr "href" link)) ].

Definition _analyze_navigation (s : soup) : dict :=
  let nav_elements := Soup.find_all (Soup.name_in ["nav"; "menu"]) s in
  let nav_links :=
    flat_map (fun nav => map nav_link_entry
                           (Soup.find_all link_filter (Soup.children nav)))
             nav_elements in
  let n := length nav_links in
  [ ("navigation_elements", vnat (length nav_elements));
    ("navigation_links", vnat n);
    ("sample_nav_links", VList (firstn 10 nav_links));
    ("status", VStr (if (5 <? n)%nat then "good" else "needs_improvement"));
    ("recommendation", VStr (if (n <=? 5)%nat then "Improve navigation structure"
                             else "Good navigation structure")) ].

(** [_analyze_accessibility].  Every [+=] on the score is one float
    addition, every quotient and product one float operation. *)
Definition is_skip_link (n : node) : bool :=
  Soup.name_is "a" n
  && match Soup.attr "href" n with
     | Some h => negb (PyStr.is_empty h) && PyStr.startswith "#" h
     | None => false
     end.

Definition ratio_points (part whole : nat) (weight : Q) : Q :=
  PyFloat.fl (PyFloat.fl (inject_Z (Z.of_nat part) / inject_Z (Z.of_nat whole))
              * weight)%Q.

Definition _analyze_accessibility (s : soup) : dict :=
  let images := Soup.find_all (Soup.name_is "img") s in
  let images_with_alt := length (List.filter has_alt images) in
  let total_images := length images in
  let form_labels := length (Soup.find_all (Soup.name_is "label") s) in
  let total_inputs :=
    length (Soup.find_all (Soup.name_in ["input"; "textarea"; "select"]) s) in
  let aria_labels := length (Soup.find_all (Soup.has_attr "aria-label") s) in
  let heading_structure :=
    match Soup.find (Soup.name_is "h1") s with Some _ => true | None => false end in
  let skip_links := length (Soup.find_all is_skip_link s) in
  let score0 : Q := 0%Q in
  let score1 : Q :=
    if (0 <? total_images)%nat
    then PyFloat.fl (score0 + ratio_points images_with_alt total_images 30)%Q
    else score0 in
  let score2 : Q :=
    if (0 <? total_inputs)%nat
    then PyFloat.fl (score1 + ratio_points form_labels total_inputs 30)%Q
    else score1 in
  let score3 : Q :=
    PyFloat.fl (score2 + inject_Z (Z.of_nat (Nat.min (aria_labels * 5) 20)))%Q in
  let score4 : Q :=
    PyFloat.fl (score3 + (if heading_structure then 10 else 0))%Q in
  let score : Q :=
    PyFloat.fl (score4 + inject_Z (Z.of_nat (Nat.min (skip_links * 5) 10)))%Q in
  [ ("images_with_alt", vnat images_with_alt);
    ("total_images", vnat total_images);
    ("form_labels", vnat form_labels);
    ("total_inputs", vnat total_inputs);
    ("aria_labels", vnat aria_labels);
    ("heading_structure", VBool heading_structure);
    ("skip_links", vnat skip_links);
    ("accessibility_score", VFloat (PyFloat.round1 score));
    ("status", VStr (if Qle_bool 70%Q score then "good" else "needs_improvement"));
    ("recommendation", VStr (if Qltb score 70%Q then "Improve accessibility features"
                             else "Good accessibility implementation")) ].

(** *** Security and performance *)

(** [headers.get(name)] on the case-insensitive headers of the response. *)
Fixpoint header_get (name : string) (hs : list (string * string)) : option string :=
  match hs with
  | [] => None
  | (k, v) :: rest =>
      if String.eqb (PyStr.lower k) (PyStr.lower name) then Some v
      else header_get name rest
  end.

Definition header_or_empty (name : string) : string :=
  match header_get name (headers (self_response A)) with Some v => v | None => "" end.

Definition header_present (name : string) : bool :=
  negb (PyStr.is_empty (header_or_empty name)).

(** [_check_security_headers] *)
Definition security_header_names : list (string * string) :=
  [ ("content_security_policy", "Content-Security-Policy");
    ("x_frame_options", "X-Frame-Options");
    ("x_content_type_options", "X-Content-Type-Options");
    ("strict_transport_security", "Strict-Transport-Security");
    ("referrer_policy", "Referrer-Policy");
    ("x_xss_protection", "X-XSS-Protection") ].

Definition _check_security_headers : dict :=
  let security_headers : dict :=
    map (fun kn => (fst kn, vopt (header_get (snd kn) (headers (self_response A)))))
        security_header_names in
  let present_headers := length (List.filter is_truthy_str (Dict.values security_headers)) in
  let total_headers := length security_header_names in
  [ ("security_headers", VDict security_headers);
    ("headers_present", vnat present_headers);
    ("total_possible", vnat total_headers);
    ("security_score",
      VFloat (PyFloat.round1 (ratio_points present_headers total_headers 100)));
    ("status", VStr (if (4 <=? present_headers)%nat then "good" else "needs_improvement"));
    ("recommendation",
      VStr ("Implement " +:+ nat_to_string (total_headers - present_headers)
            +:+ " missing security headers")) ].

(** [_check_performance_enhancements] *)
Definition cdn_indicators : list string :=
  [ "cloudflare"; "amazonaws"; "azure"; "googleusercontent"; "fastly"; "maxcdn" ].

Definition weight (b : bool) (w : Z) : Z := if b then w else 0%Z.

Definition _check_performance_enhancements (s : soup) : dict :=
  let gzip_compression :=
    PyStr.contains "gzip" (PyStr.lower (header_or_empty "Content-Encoding")) in
  let cache_control := header_present "Cache-Control" in
  let etag := header_present "ETag" in
  let last_modified := header_present "Last-Modified" in
  let lazy_images :=
    length (Soup.find_all
              (fun n => Soup.name_is "img" n && Soup.attr_is "loading" "lazy" n) s) in
  let server_header := PyStr.lower (header_or_empty "Server") in
  let cdn_usage := existsb (fun cdn => PyStr.contains cdn server_header) cdn_indicators in
  let score :=
    (weight gzip_compression 20 + weight cache_control 20 + weight etag 15
     + weight last_modified 15 + weight (0 <? lazy_images)%nat 15
     + weight cdn_usage 15)%Z in
  [ ("gzip_compression", VBool gzip_compression);
    ("cache_control", VBool cache_control);
    ("etag", VBool etag);
    ("last_modified", VBool last_modified);
    ("content_length", vopt (header_get "Content-Length" (headers (self_response A))));
    ("server_response_time", elapsed (self_response A));
    ("lazy_loading_images", vnat lazy_images);
    ("cdn_usage", VBool cdn_usage);
    ("performance_score", VInt score);
    ("status", VStr (if (70 <=? score)%Z then "good" else "needs_improvement"));
    ("recommendation", VStr (if (score <? 70)%Z then "Implement performance optimizations"
                             else "Good performance optimizations")) ].

(** *** The five audit modules

    Each module is a sequence of blocks
    [try: cat[key] = body()  except Exception as e: cat[key] = {'error': str(e)}],
    written here as a table of checks in source order and one loop
    that runs them. *)

Record check : Type := mk_check {
  check_key : string;
  check_body : M value;
  check_handler : string -> value   (* what the [except] clause stores *)
}.

Definition error_finding (e : string) : value := VDict [("error", VStr e)].

Definition guarded (key : string) (body : M value) : check :=
  mk_check key body error_finding.

Fixpoint run_checks (cs : list check) (cat : dict) (s : soup) : dict * soup :=
  match cs with
  | [] => (cat, s)
  | c :: rest =>
      match check_body c s with
      | (Ok v, s') => run_checks rest (Dict.set (check_key c) v cat) s'
      | (Raise e, s') =>
          run_checks rest (Dict.set (check_key c) (check_handler c e) cat) s'
      end
  end.

Definition as_value (m : M dict) : M value := d <- m ;; ret (VDict d).

Definition technical_checks : list check :=
  [ mk_check "response_time" response_time
      (fun _ => error_finding "Could not measure response time");
    guarded "https_ssl" https_ssl;
    guarded "mobile_friendly" mobile_friendly;
    guarded "indexability" indexability;
    guarded "xml_sitemap" xml_sitemap;
    guarded "robots_txt" robots_txt;
    guarded "canonical_tags" canonical_tags;
    guarded "structured_data" structured_data;
    guarded "broken_links" broken_links ].

Definition on_page_checks : list check :=
  [ guarded "title_tags" title_tags;
    guarded "meta_description" meta_description;
    guarded "heading_structure" (reads (fun s => VDict (_analyze_heading_structure s)));
    guarded "image_optimization" (reads (fun s => VDict (_analyze_images s)));
    guarded "internal_linking" (reads (fun s => VDict (_analyze_internal_links s)));
    guarded "content_analysis" (as_value _analyze_content) ].

Definition off_page_checks : list check :=
  [ guarded "domain_authority" (ret (VDict _get_domain_info));
    guarded "social_signals" (reads (fun s => VDict (_check_social_signals s)));
    guarded "backlink_analysis" (ret (VDict _basic_backlink_analysis)) ].

Definition user_experience_checks : list check :=
  [ guarded "navigation" (reads (fun s => VDict (_analyze_navigation s)));
    guarded "accessibility" (reads (fun s => VDict (_analyze_accessibility s)));
    guarded "responsive_design" (reads (fun s => VDict (_check_responsive_design s))) ].

Definition security_performance_checks : list check :=
  [ guarded "security_headers" (ret (VDict _check_security_headers));
    guarded "performance_enhancements"
      (reads (fun s => VDict (_check_performance_enhancements s))) ].

Definition _audit_technical_seo : soup -> dict * soup := run_checks technical_checks [].
Definition _audit_on_page_seo : soup -> dict * soup := run_checks on_page_checks [].
Definition _audit_off_page_seo : soup -> dict * soup := run_checks off_page_checks [].
Definition _audit_user_experience : soup -> dict * soup :=
  run_checks user_experience_checks [].
Definition _audit_security_performance : soup -> dict * soup :=
  run_checks security_performance_checks [].

(** The five tables, in the order [audit_website] runs them. *)
Definition audit_modules : list (list check) :=
  [ technical_checks; on_page_checks; off_page_checks;
    user_experience_checks; security_performance_checks ].

(** [_audit_pagespeed_insights]; [_get_pagespeed_data] does not raise,
    so the [except] clause around the two calls is never taken. *)
Definition _audit_pagespeed_insights : dict :=
  match pagespeed_api_key A with
  | Some key =>
      if PyStr.is_empty key then [ ("error", VStr "No API key provided") ]
      else [ ("mobile", VDict (pagespeed_data W (self_url A) key "mobile"));
             ("desktop", VDict (pagespeed_data W (self_url A) key "desktop")) ]
  | None => [ ("error", VStr "No API key provided") ]
  end.

(** The [try] block of [audit_website] once the page is fetched and
    parsed.  Every step catches its own exceptions, so the block runs
    to its [return]. *)
Definition run_modules (now : string) (s0 : soup) : audit_results :=
  let '(technical, s1) := _audit_technical_seo s0 in
  let '(on_page, s2) := _audit_on_page_seo s1 in
  let '(off_page, s3) := _audit_off_page_seo s2 in
  let '(ux, s4) := _audit_user_experience s3 in
  let '(security, s5) := _audit_security_performance s4 in
  let pagespeed :=
    match pagespeed_api_key A with
    | Some key => if PyStr.is_empty key then [] else _audit_pagespeed_insights
    | None => []
    end in
  Scoring._calculate_scores
    (mk_results (self_url A) (self_domain A) now technical on_page off_page
       ux security pagespeed None None).

End Methods.

Definition normalize_url (u : string) : string :=
  if PyStr.startswith_any ["http://"; "https://"] u then u else "https://" +:+ u.

(** [SEOAuditor(pagespeed_api_key=api_key).audit_website(url)] *)
Definition audit_website (W : world) (api_key : option string) (url0 : string)
  : audit_results :=
  let url := normalize_url url0 in
  let domain := Url.netloc url in
  match session_get W url with
  | Ok resp =>
      run_modules W (mk_auditor url domain resp api_key) (now_iso W)
        (html_parser W (content resp))
  | Raise e =>
      mk_results url domain (now_iso W) [] [] [] [] [] [] None (Some e)
  end.

End Auditor.

(** ** The job manager ([web_interface.py]) *)

Module Web.

(** [datetime.now()] *)
Record datetime : Type := mk_datetime {
  year : Z; month : Z; day : Z;
  hour : Z; minute : Z; second : Z;
  microsecond : Z
}.

(** A decimal number left-padded with zeros to [width] digits. *)
Fixpoint zeros (n : nat) : string :=
  match n with O => "" | S k => "0" +:+ zeros k end.

Definition padded (width : nat) (n : Z) : string :=
  let digits := PyStr.Z_to_string n in
  zeros (width - String.length digits) +:+ digits.

(** [now.strftime('%Y%m%d_%H%M%S')] *)
Definition strftime (now : datetime) : string :=
  padded 4 (year now) +:+ padded 2 (month now) +:+ padded 2 (day now) +:+ "_"
  +:+ padded 2 (hour now) +:+ padded 2 (minute now) +:+ padded 2 (second now).

(** What a worker stores: the report with the two keys added to it. *)
Record cached : Type := mk_cached {
  results : audit_results;
  audit_id : string;
  report : string
}.

(** A started thread: the variables captured by [run_audit]. *)
Record job : Type := mk_job {
  job_id : string;
  job_url : string;
  job_api_key : option string
}.

(** The module-level [audit_results_cache] and the threads in flight. *)
Record server : Type := mk_server {
  audit_results_cache : gmap string cached;
  threads : list job
}.

Inductive reply : Type :=
| Json (code : Z) (body : dict)
| JsonReport (code : Z) (body : cached).

Definition type_name (v : value) : string :=
  match v with
  | VNone => "NoneType" | VBool _ => "bool" | VInt _ => "int"
  | VFloat _ => "float" | VStr _ => "str" | VList _ => "list" | VDict _ => "dict"
  end.

Definition no_attribute (v : value) (a : string) : string :=
  "'" +:+ type_name v +:+ "' object has no attribute '" +:+ a +:+ "'".

(** [data.get(key, '').strip()] *)
Definition get_stripped (key : string) (data : value) : result string :=
  match data with
  | VDict d =>
      match Auditor.dict_get_default key (VStr "") d with
      | VStr s => Ok (PyStr.strip s)
      | v => Raise (no_attribute v "strip")
      end
  | v => Raise (no_attribute v "get")
  end.

(** The identifier built in [start_audit]. *)
Definition make_audit_id (hash : string -> Z) (now : datetime) (url : string) : string :=
  "audit_" +:+ strftime now +:+ "_" +:+ PyStr.Z_to_string (hash url mod 10000).

Section Routes.

Variable hash : string -> Z.                 (* the built-in [hash] of this process *)
Variable generate_report : audit_results -> string.

(** [POST /audit].  [data] is the outcome of [request.get_json()]. *)
Definition start_audit (now : datetime) (data : result value) (srv : server)
  : reply * server :=
  match data with
  | Raise e => (Json 500 [("error", VStr e)], srv)
  | Ok d =>
      match get_stripped "url" d with
      | Raise e => (Json 500 [("error", VStr e)], srv)
      | Ok url =>
          match get_stripped "api_key" d with
          | Raise e => (Json 500 [("error", VStr e)], srv)
          | Ok key =>
              let api_key := if PyStr.is_empty key then None else Some key in
              if PyStr.is_empty url
              then (Json 400 [("error", VStr "URL is required")], srv)
              else
                let id := make_audit_id hash now url in
                (Json 200 [ ("audit_id", VStr id);
                            ("message", VStr "Audit started successfully");
                            ("status", VStr "running") ],
                 mk_server (audit_results_cache srv)
                   (threads srv ++ [mk_job id url api_key]))
          end
      end
  end.

(** The thread body [run_audit], run to completion in world [W]. *)
Definition run_audit (W : world) (j : job) (srv : server) : server :=
  let r := Auditor.audit_website W (job_api_key j) (job_url j) in
  mk_server
    (<[job_id j := mk_cached r (job_id j) (generate_report r)]>
       (audit_results_cache srv))
    (threads srv).

(** [GET /audit/<audit_id>/status] *)
Definition audit_status (srv : server) (id : string) : reply :=
  match audit_results_cache srv !! id with
  | Some _ => Json 200 [ ("status", VStr "completed"); ("audit_id", VStr id) ]
  | None => Json 200 [ ("status", VStr "running"); ("audit_id", VStr id) ]
  end.


End Routes.

(** The field of a JSON reply, when it has it. *)
Definition reply_field (k : string) (r : reply) : option value :=
  match r with
  | Json _ body => Dict.get k body
  | JsonReport _ _ => None
  end.

(** The events of the job manager: a submission, or the thread started
    [i]-th among those still running reaching its end in world [W]. *)
Inductive event : Type :=
| Submit (now : datetime) (data : result value)
| Finish (W : world) (i : nat).

Definition step (hash : string -> Z) (render : audit_results -> string)
  (srv : server) (ev : event) : server :=
  match ev with
  | Submit now data => snd (start_audit hash now data srv)
  | Finish W i =>
      match threads srv !! i with
      | Some j =>
          mk_server (audit_results_cache (run_audit render W j srv))
            (delete i (threads srv))
      | None => srv
      end
  end.

Definition is_submission (ev : event) : bool :=
  match ev with Submit _ _ => true | Finish _ _ => false end.

Definition initial_server : server := mk_server ∅ [].

(** The identifier of the thread an event brings to its end, if any. *)
Definition finished_by (srv : server) (ev : event) : list string :=
  match ev with
  | Submit _ _ => []
  | Finish _ i => match threads srv !! i with Some j => [job_id j] | None => [] end
  end.

(** A run of the job manager, with the identifiers of the threads that
    have finished so far. *)
Definition step_logged (hash : string -> Z) (render : audit_results -> string)
  (st : server * list string) (ev : event) : server * list string :=
  (step hash render (fst st) ev, finished_by (fst st) ev ++ snd st).

Definition run (hash : string -> Z) (render : audit_results -> string)
  (events : list event) : server * list string :=
  fold_left (step_logged hash render) events (initial_server, []).

End Web.

(** ** The specification's statements, as predicates *)

Module Spec.

Local Open Scope Q_scope.

(** The five categories with the key of their score. *)
Definition categories (r : audit_results) : list (string * dict) :=
  [ ("technical_seo_score", technical_seo r);
    ("on_page_seo_score", on_page_seo r);
    ("off_page_seo_score", off_page_seo r);
    ("user_experience_score", user_experience r);
    ("security_performance_score", security_performance r) ].

(** "Category score = mean of contributing points (0 if no Finding in
    that category carries a status); overall score = mean of all category
    scores that are strictly greater than zero", for the report [r] and
    the report [r'] that carries the scores. *)
Definition aggregation_rule (r r' : audit_results) : Prop :=
  Forall (fun kc => Scoring.score_of (fst kc) r' == Scoring.mean_points (snd kc))
         (categories r)
  /\ Scoring.score_of "overall_score" r'
     == Scoring.mean_positive (Scoring.category_scores r').

(** "No category's score is left uncomputed": each score is the one the
    rule of the technical category gives for that category's Findings. *)
Definition every_category_scored (r r' : audit_results) : Prop :=
  Forall (fun kc => Scoring.score_of (fst kc) r' = Scoring.category_score (snd kc))
         (categories r).

(** *** Link probe *)

Definition opt_list {X : Type} (o : option X) : list X :=
  match o with Some x => [x] | None => [] end.

Definition bool_count (b : bool) : Z := if b then 1%Z else 0%Z.

Section Probe.

Variable W : world.
Variable A : auditor.

(** The anchors the loop visits: the first 20 with an [href]. *)
Definition sampled_links (s : soup) : list node :=
  firstn 20 (Soup.find_all Auditor.link_filter s).

(** The resolved url of an anchor that is checked; [None] when the
    anchor is skipped. *)
Definition checked_url (link : node) : option string :=
  match Soup.attr "href" link with
  | Some href =>
      if PyStr.is_empty href || PyStr.startswith_any ["#"; "mailto:"; "tel:"] href
      then None
      else Some (urljoin W (self_url A) href)
  | None => None
  end.

(** The entry recorded for an anchor whose check answered with a status
    of 400 or more. *)
Definition status_failure (link : node) : option value :=
  match checked_url link with
  | Some u =>
      match session_head W u with
      | Ok code =>
          if (400 <=? code)%Z
          then Some (VDict [ ("url", VStr u); ("status_code", VInt code);
                             ("text", VStr (PyStr.take 50 (Soup.get_text link))) ])
          else None
      | Raise _ => None
      end
  | None => None
  end.

(** The check of the anchor raised (timeout, refused connection, ...). *)
Definition check_raised (link : node) : bool :=
  match checked_url link with
  | Some u => match session_head W u with Raise _ => true | Ok _ => false end
  | None => false
  end.

Definition is_checked (link : node) : bool :=
  match checked_url link with Some _ => true | None => false end.

End Probe.

Definition entry_url (e : value) : string :=
  match e with
  | VDict d => match Dict.get "url" d with Some (VStr u) => u | _ => "" end
  | _ => ""
  end.

(** The audited domain occurs somewhere in the url of the entry. *)
Definition mentions_domain (A : auditor) (e : value) : bool :=
  PyStr.contains (self_domain A) (entry_url e).

(** "[broken_count] always equals [len(internal) + len(external)]" *)
Definition count_matches_lists (p : Auditor.probe) : Prop :=
  Auditor.broken_count p
  = Z.of_nat (length (Auditor.internal p) + length (Auditor.external p)).

(** "Internal/external classification is by exact host match against
    the audited domain." *)
Definition classified_by_host (A : auditor) (p : Auditor.probe) : Prop :=
  Forall (fun e => Url.netloc (entry_url e) = self_domain A) (Auditor.internal p)
  /\ Forall (fun e => Url.netloc (entry_url e) <> self_domain A) (Auditor.external p).

(** *** Failure handling *)

(** "Finding{status: error, recommendation: failure description}" *)
Definition error_status_finding (v : value) (description : string) : Prop :=
  match v with
  | VDict d => Dict.get "status" d = Some (VStr "error")
               /\ Dict.get "recommendation" d = Some (VStr description)
  | _ => False
  end.

(** "Each downstream analyzer independently reports an error Finding":
    the report carries a top-level error and no category is empty. *)
Definition degraded_with_findings (r : audit_results) : Prop :=
  error r <> None /\ Forall (fun kc => snd kc <> []) (categories r).

End Spec.

(** ** Sample inputs *)

Module Examples.

Definition finding (status : string) : value := VDict [("status", VStr status)].

(** Three technical Findings (good, poor, error) and one good on-page
    Finding. *)
Definition thirds_report : audit_results :=
  mk_results "https://example.com" "example.com" "2024-01-01T12:00:00"
    [ ("https_ssl", finding "good"); ("mobile_friendly", finding "poor");
      ("indexability", finding "error") ]
    [ ("title_tags", finding "good") ]
    [] [] [] [] None None.

(** A report whose only Finding is a good on-page one. *)
Definition on_page_only_report : audit_results :=
  mk_results "https://example.com" "example.com" "2024-01-01T12:00:00"
    [] [ ("title_tags", finding "good") ] [] [] [] [] None None.

(** [urljoin] for a base url that is a bare origin: an absolute reference
    is kept, any other is appended to the origin. *)
Definition join_origin (base ref : string) : string :=
  if PyStr.startswith_any ["http://"; "https://"] ref then ref
  else if PyStr.startswith "/" ref then base +:+ ref
  else base +:+ "/" +:+ ref.

Definition page (code : Z) (body : string) : response :=
  mk_response code [] body body (VFloat (1 # 10)).

Definition site : string := "https://example.com".

Definition not_found (u : string) : result response := Ok (page 404 "Not Found").

(** A world in which the audited page has the given body, which the
    parser turns into the given tree; [others] answers every other GET
    and [head] every HEAD. *)
Definition sample_world (body : string) (tree : soup)
  (others : string -> result response) (head : string -> result Z) : world :=
  mk_world "2024-01-01T12:00:00" 0%Q
    (fun u => if String.eqb u site then Ok (page 200 body) else others u)
    head (fun _ => true) join_origin
    (fun c => if String.eqb c body then tree else [])
    (fun _ => Raise "Expecting value")
    (fun _ => Raise "No match for domain")
    (fun _ _ _ => [("error", VStr "API key not valid")]).

Definition example_auditor : auditor :=
  mk_auditor site "example.com" (page 200 "") None.

(** One anchor, to a page of the audited site. *)
Definition one_link_html : string := "<a href='https://example.com/gone'>Gone</a>".

Definition one_link_page : soup :=
  [ Tag "a" [("href", "https://example.com/gone")] [Text "Gone"] ].

(** Every HEAD times out. *)
Definition timeout_world : world :=
  sample_world one_link_html one_link_page not_found
    (fun _ => Raise "Read timed out").

(** One anchor, to another host whose name ends like the audited one. *)
Definition lookalike_html : string := "<a href='https://notexample.com/page'>Partner</a>".

Definition lookalike_page : soup :=
  [ Tag "a" [("href", "https://notexample.com/page")] [Text "Partner"] ].

(** Every HEAD answers 404. *)
Definition not_found_world : world :=
  sample_world lookalike_html lookalike_page not_found (fun _ => Ok 404%Z).

(** An empty page is served; any other GET is refused. *)
Definition no_sitemap_world : world :=
  sample_world "" [] (fun _ => Raise "Connection refused") (fun _ => Ok 200%Z).

(** No GET succeeds. *)
Definition offline_world : world :=
  mk_world "2024-01-01T12:00:00" 0%Q
    (fun _ => Raise "Connection timed out") (fun _ => Raise "Connection timed out")
    (fun _ => false) join_origin (fun _ => [])
    (fun _ => Raise "Expecting value")
    (fun _ => Raise "No match for domain")
    (fun _ _ _ => [("error", VStr "API key not valid")]).

(** A page with a viewport tag and one media query in a style sheet. *)
Definition media_html : string :=
  "<html><head><meta name='viewport' content='width=device-width'>"
  +:+ "<style>@media (max-width: 600px) { body { margin: 0 } }</style></head>"
  +:+ "<body><p>Hello.</p></body></html>".

Definition media_page : soup :=
  [ Tag "html" []
      [ Tag "head" []
          [ Tag "meta" [("name", "viewport"); ("content", "width=device-width")] [];
            Tag "style" [] [Text "@media (max-width: 600px) { body { margin: 0 } }"] ];
        Tag "body" [] [Tag "p" [] [Text "Hello."]] ] ].

(** The page is served, there is no sitemap and no robots.txt. *)
Definition media_world : world :=
  sample_world media_html media_page not_found (fun _ => Ok 200%Z).

(** A page whose only structured data is a JSON-LD block that does not
    parse. *)
Definition malformed_json_ld_page : soup :=
  [ Tag "script" [("type", "application/ld+json")] [Text "{ not json"] ].

(** Two submissions of one url within the same second. *)
Definition first_click : Web.datetime := Web.mk_datetime 2024 1 1 12 0 0 100000%Z.
Definition second_click : Web.datetime := Web.mk_datetime 2024 1 1 12 0 0 900000%Z.
Definition submission : result value := Ok (VDict [("url", VStr "example.com")]).

End Examples.

(** ** The demonstration script ([demo.py]) *)

Module Demo.

(** Truth value of a Python object. *)
Definition truthy (v : value) : bool :=
  match v with
  | VNone => false
  | VBool b => b
  | VInt z => negb (z =? 0)%Z
  | VFloat q => negb (Qeq_bool q 0)
  | VStr s => negb (PyStr.is_empty s)
  | VList l => match l with [] => false | _ => true end
  | VDict d => match d with [] => false | _ => true end
  end.

(** The number a value stands for in a comparison, when it is one. *)
Definition as_number (v : value) : option Q :=
  match v with
  | VInt z => Some (inject_Z z)
  | VFloat q => Some q
  | VBool b => Some (if b then 1%Q else 0%Q)
  | _ => None
  end.

Definition not_supported (op left right : string) : string :=
  "'" +:+ op +:+ "' not supported between instances of '" +:+ left
  +:+ "' and '" +:+ right +:+ "'".

(** [lo <= v] for an integer literal [lo] *)
Definition int_le_value (lo : Z) (v : value) : result bool :=
  match as_number v with
  | Some q => Ok (Qle_bool (inject_Z lo) q)
  | None => Raise (not_supported "<=" "int" (Web.type_name v))
  end.

(** [v <= hi] for an integer literal [hi] *)
Definition value_le_int (v : value) (hi : Z) : result bool :=
  match as_number v with
  | Some q => Ok (Qle_bool q (inject_Z hi))
  | None => Raise (not_supported "<=" (Web.type_name v) "int")
  end.

(** [v < hi] for an integer literal [hi] *)
Definition value_lt_int (v : value) (hi : Z) : result bool :=
  match as_number v with
  | Some q => Ok (Qltb q (inject_Z hi))
  | None => Raise (not_supported "<" (Web.type_name v) "int")
  end.

(** [v == 0] *)
Definition value_is_zero (v : value) : bool :=
  match as_number v with
  | Some q => Qeq_bool q 0
  | None => false
  end.

(** [cat.get(key, {}).get(field, default)] *)
Definition lookup (cat : dict) (key field : string) (default : value) : result value :=
  match Dict.get key cat with
  | None => Ok default
  | Some (VDict d) => Ok (Auditor.dict_get_default field default d)
  | Some v => Raise (Web.no_attribute v "get")
  end.

Definition and_then {X Y : Type} (r : result X) (k : X -> result Y) : result Y :=
  match r with
  | Ok x => k x
  | Raise e => Raise e
  end.

Definition when (b : bool) (message : string) : list string :=
  if b then [message] else [].

Definition default_recommendations : list string :=
  [ "✅ Great! Your website is well-optimized";
    "🚀 Consider adding more structured data for rich snippets";
    "📱 Test mobile user experience regularly";
    "⚡ Monitor Core Web Vitals performance";
    "🔄 Schedule regular SEO audits" ].

(** [30 <= v <= 60], the second comparison made only when the first
    holds. *)
Definition in_title_range (v : value) : result bool :=
  and_then (int_le_value 30 v) (fun above =>
  if above then value_le_int v 60 else Ok false).

(** [generate_recommendations(results)], for a report built by
    [audit_website], which always has the category keys the function
    tests for. *)
Definition generate_recommendations (results : audit_results) : result (list string) :=
  let tech := technical_seo results in
  let on_page := on_page_seo results in
  let security := security_performance results in
  and_then (lookup tech "https_ssl" "status" VNone) (fun https_status =>
  and_then (lookup tech "mobile_friendly" "has_viewport_meta" VNone) (fun viewport =>
  and_then (lookup tech "xml_sitemap" "exists" VNone) (fun sitemap =>
  and_then (lookup tech "structured_data" "total_schemas" (VInt 0)) (fun schemas =>
  and_then (lookup on_page "meta_description" "exists" VNone) (fun description =>
  and_then (lookup on_page "title_tags" "length" (VInt 0)) (fun title_length =>
  and_then (in_title_range title_length) (fun title_ok =>
  and_then (lookup on_page "image_optimization" "alt_percentage" (VInt 0)) (fun alt =>
  and_then (value_lt_int alt 90) (fun alt_low =>
  and_then (lookup security "security_headers" "security_score" (VInt 0)) (fun sec =>
  and_then (value_lt_int sec 70) (fun sec_low =>
  and_then (lookup security "performance_enhancements" "performance_score" (VInt 0))
    (fun perf =>
  and_then (value_lt_int perf 70) (fun perf_low =>
  let recommendations :=
    when (negb (Scoring.value_is_str https_status "good"))
         "🔴 CRITICAL: Implement HTTPS/SSL security"
    ++ when (negb (truthy viewport)) "🔴 CRITICAL: Add viewport meta tag for mobile"
    ++ when (negb (truthy sitemap)) "🟡 HIGH: Create and submit XML sitemap"
    ++ when (value_is_zero schemas) "🟡 MEDIUM: Add structured data markup"
    ++ when (negb (truthy description)) "🔴 HIGH: Add meta description"
    ++ when (negb title_ok) "🟡 MEDIUM: Optimize title tag length (30-60 chars)"
    ++ when alt_low "🟡 MEDIUM: Add alt text to all images"
    ++ when sec_low "🟡 MEDIUM: Implement security headers"
    ++ when perf_low "🟡 MEDIUM: Optimize performance (compression, caching)" in
  Ok (match recommendations with
      | [] => default_recommendations
      | _ => recommendations
      end)))))))))))))).

(** The nine findings [generate_recommendations] can report, in order. *)
Definition issue_messages : list string :=
  [ "🔴 CRITICAL: Implement HTTPS/SSL security";
    "🔴 CRITICAL: Add viewport meta tag for mobile";
    "🟡 HIGH: Create and submit XML sitemap";
    "🟡 MEDIUM: Add structured data markup";
    "🔴 HIGH: Add meta description";
    "🟡 MEDIUM: Optimize title tag length (30-60 chars)";
    "🟡 MEDIUM: Add alt text to all images";
    "🟡 MEDIUM: Implement security headers";
    "🟡 MEDIUM: Optimize performance (compression, caching)" ].

End Demo.

(** ** Observations used in the statements below *)

Module Views.



Definition keys (d : dict) : list string := map fst d.

(** The fields [generate_recommendations] compares with a number, each
    with the key of its finding. *)
Definition compared_fields : list (string * string) :=
  [ ("title_tags", "length");
    ("image_optimization", "alt_percentage");
    ("security_headers", "security_score");
    ("performance_enhancements", "performance_score") ].

Definition is_number (v : value) : bool :=
  match Demo.as_number v with
  | Some _ => true
  | None => false
  end.

(** A finding [generate_recommendations] can read: a dictionary in which
    the compared fields of its key, where present, hold numbers. *)
Definition readable (key : string) (v : value) : bool :=
  match v with
  | VDict d =>
      forallb (fun kf =>
                 negb (String.eqb (fst kf) key)
                 || match Dict.get (snd kf) d with
                    | Some x => is_number x
                    | None => true
                    end) compared_fields
  | _ => false
  end.

Definition all_readable (cat : dict) : bool :=
  forallb (fun kv => readable (fst kv) (snd kv)) cat.

(** The points of the accessibility score that do not depend on images
    or form inputs. *)
Definition fixed_accessibility_points (aria_labels skip_links : nat) (h1 : bool) : Z :=
  (Z.of_nat (Nat.min (aria_labels * 5) 20) + (if h1 then 10 else 0)
   + Z.of_nat (Nat.min (skip_links * 5) 10))%Z.

End Views.

(** ** More sample inputs *)

Module MoreExamples.


(** One image with an alternative text. *)
Definition logo_page : soup :=
  [ Tag "img" [("src", "logo.png"); ("alt", "Logo")] [] ].

(** A response with compression and caching headers, in lower case. *)
Definition tuned_response : response :=
  mk_response 200
    [ ("content-encoding", "gzip"); ("cache-control", "max-age=3600");
      ("etag", "abc"); ("last-modified", "Mon, 01 Jan 2024 00:00:00 GMT") ]
    "" "" (VFloat (1 # 10)).

Definition tuned_auditor : auditor :=
  mk_auditor Examples.site "example.com" tuned_response None.

(** Submissions: a blank url, and a null key beside a good url. *)
Definition blank_submission : result value := Ok (VDict [("url", VStr "   ")]).

Definition null_key_submission : result value :=
  Ok (VDict [("url", VStr "example.com"); ("api_key", VNone)]).

(** A response with four of the six security headers. *)
Definition four_headers_auditor : auditor :=
  mk_auditor Examples.site "example.com"
    (mk_response 200
       [ ("Content-Security-Policy", "default-src 'self'");
         ("X-Frame-Options", "DENY");
         ("X-Content-Type-Options", "nosniff");
         ("Referrer-Policy", "no-referrer") ]
       "" "" (VFloat (1 # 10)))
    None.

(** A report written by hand, whose title finding has no length. *)
Definition unmeasured_title_report : audit_results :=
  mk_results "https://example.com" "example.com" "2024-01-01T12:00:00"
    [] [("title_tags", VDict [("length", VNone)])] [] [] [] [] None None.

End MoreExamples.

(** * Properties *)

(** ** Rounding *)

Module PyFloatFacts.

Import PyFloat.
Local Open Scope Q_scope.

Lemma round_half_even_nonneg (q : Q) : 0 <= q -> (0 <= round_half_even q)%Z.
Proof.
  intros Hq. unfold round_half_even.
  assert (Hf : (0 <= Qfloor q)%Z).
  { change 0%Z with (Qfloor 0). now apply Qfloor_resp_le. }
  destruct (Qcompare _ _); [destruct (Z.even _)| |]; lia.
Qed.

Lemma scale2_nonneg (q : Q) (k : Z) : 0 <= q -> 0 <= scale2 q k.
Proof.
  intros Hq. unfold scale2.
  assert (Hpow : forall n, (0 <= n)%Z -> 0 < inject_Z (2 ^ n)).
  { intros n Hn. change 0 with (inject_Z 0). rewrite <- Zlt_Qlt.
    apply Z.pow_pos_nonneg; lia. }
  destruct (0 <=? k)%Z eqn:Hk.
  - apply Qmult_le_0_compat; [assumption|].
    apply Qlt_le_weak, Hpow. now apply Z.leb_le.
  - apply Z.leb_gt in Hk.
    apply Qle_shift_div_l; [apply Hpow; lia|].
    now rewrite Qmult_0_l.
Qed.

Lemma nearest_double_nonneg (a b : positive) : 0 <= nearest_double a b.
Proof.
  unfold nearest_double. apply scale2_nonneg.
  change 0 with (inject_Z 0). rewrite <- Zle_Qle.
  apply round_half_even_nonneg, scale2_nonneg. discriminate.
Qed.

Lemma fl_nonneg (q : Q) : 0 <= q -> 0 <= fl q.
Proof.
  intros Hq. unfold fl.
  assert (Hred : 0 <= Qred q) by now rewrite Qred_correct.
  destruct (Qred q) as [n d]. simpl.
  destruct n as [|a|a].
  - apply Qle_refl.
  - apply nearest_double_nonneg.
  - exfalso. unfold Qle in Hred. simpl in Hred. lia.
Qed.

Lemma round1_nonneg (x : Q) : 0 <= x -> 0 <= round1 x.
Proof.
  intros Hx. unfold round1, Qle. simpl. rewrite Z.mul_1_r.
  apply round_half_even_nonneg.
  apply Qmult_le_0_compat; [assumption | discriminate].
Qed.

Lemma div_round1_nonneg (q : Q) : 0 <= q -> 0 <= div_round1 q.
Proof. intros Hq. apply round1_nonneg, fl_nonneg, Hq. Qed.

(** The rounded quotient depends on the value of the quotient only. *)
Lemma div_round1_ext (p q : Q) : p == q -> div_round1 p = div_round1 q.
Proof.
  intros Hpq. unfold div_round1, fl.
  now rewrite (Qred_complete _ _ Hpq).
Qed.

Lemma div_round1_0 : div_round1 0 == 0.
Proof. reflexivity. Qed.

End PyFloatFacts.


(** ** Score aggregation *)

Module ScoringFacts.

Import Scoring.
Local Open Scope Q_scope.

Lemma tally_step_spec (acc : Z * Z) (kv : string * value) :
  tally_step acc kv
  = ((fst acc + Zsum (map status_points (statuses [kv])))%Z,
     (snd acc + Z.of_nat (length (statuses [kv])))%Z).
Proof.
  destruct acc as [sc it], kv as [k v]. unfold tally_step, statuses. simpl.
  destruct v; simpl; try (f_equal; lia).
  destruct (Dict.get "status" d) as [st|]; simpl; [|f_equal; lia].
  unfold status_points.
  destruct (value_is_str st "good"); [f_equal; lia|].
  destruct (value_is_str st "needs_improvement"); f_equal; lia.
Qed.

Lemma statuses_cons (kv : string * value) (cat : dict) :
  statuses (kv :: cat) = statuses [kv] ++ statuses cat.
Proof. unfold statuses. simpl. now rewrite app_nil_r. Qed.

Lemma Zsum_app (l1 l2 : list Z) : Zsum (l1 ++ l2) = (Zsum l1 + Zsum l2)%Z.
Proof. induction l1 as [|x l1 IH]; simpl; [reflexivity | rewrite IH; lia]. Qed.

(** The loop accumulates the points and the number of status-bearing
    Findings. *)
Lemma fold_tally (cat : dict) (acc : Z * Z) :
  fold_left tally_step cat acc
  = ((fst acc + Zsum (map status_points (statuses cat)))%Z,
     (snd acc + Z.of_nat (length (statuses cat)))%Z).
Proof.
  revert acc. induction cat as [|kv cat IH]; intros acc.
  - destruct acc. cbn. f_equal; lia.
  - cbn [fold_left]. rewrite IH, tally_step_spec, (statuses_cons kv cat).
    cbn [fst snd].
    rewrite map_app, Zsum_app, length_app, Nat2Z.inj_add. f_equal; lia.
Qed.

Lemma tally_spec (cat : dict) :
  tally cat = (Zsum (map status_points (statuses cat)),
               Z.of_nat (length (statuses cat))).
Proof. unfold tally. now rewrite fold_tally. Qed.

Lemma status_points_nonneg (st : value) : (0 <= status_points st)%Z.
Proof.
  unfold status_points.
  destruct (value_is_str st "good"); [lia|].
  destruct (value_is_str st "needs_improvement"); lia.
Qed.

Lemma status_points_le_100 (st : value) : (status_points st <= 100)%Z.
Proof.
  unfold status_points.
  destruct (value_is_str st "good"); [lia|].
  destruct (value_is_str st "needs_improvement"); lia.
Qed.

Lemma Zsum_points_nonneg (sts : list value) : (0 <= Zsum (map status_points sts))%Z.
Proof.
  induction sts as [|st sts IH]; simpl; [lia|].
  pose proof (status_points_nonneg st). lia.
Qed.

(** The score of a category is the rounded mean of its points. *)
Lemma category_score_mean (cat : dict) :
  category_score cat = PyFloat.div_round1 (mean_points cat).
Proof.
  unfold category_score, mean_points. rewrite tally_spec.
  destruct (statuses cat) as [|st sts]; [reflexivity|].
  replace (0 <? Z.of_nat (length (st :: sts)))%Z with true; [reflexivity|].
  symmetry. apply Z.ltb_lt. simpl length. lia.
Qed.

Lemma mean_points_nonneg (cat : dict) : 0 <= mean_points cat.
Proof.
  unfold mean_points. destruct (statuses cat) as [|st sts] eqn:E.
  - apply Qle_refl.
  - apply Qle_shift_div_l.
    + change 0 with (inject_Z 0). rewrite <- Zlt_Qlt. simpl length. lia.
    + rewrite Qmult_0_l. change 0 with (inject_Z 0). rewrite <- Zle_Qle.
      apply Zsum_points_nonneg.
Qed.

Lemma Zsum_points_le (sts : list value) :
  (Zsum (map status_points sts) <= 100 * Z.of_nat (length sts))%Z.
Proof.
  induction sts as [|st sts IH]; [cbn; lia|].
  cbn [map Zsum fold_right length]. fold (Zsum (map status_points sts)).
  pose proof (status_points_le_100 st). lia.
Qed.

(** The mean of the points of a category lies between 0 and 100. *)
Lemma mean_points_le_100 (cat : dict) : mean_points cat <= 100.
Proof.
  unfold mean_points. destruct (statuses cat) as [|st sts] eqn:E; [discriminate|].
  apply Qle_shift_div_r.
  - change 0 with (inject_Z 0). rewrite <- Zlt_Qlt. cbn [length]. lia.
  - change 100 with (inject_Z 100). rewrite <- inject_Z_mult, <- Zle_Qle.
    apply Zsum_points_le.
Qed.

Lemma category_score_nonneg (cat : dict) : 0 <= category_score cat.
Proof.
  rewrite category_score_mean.
  apply PyFloatFacts.div_round1_nonneg, mean_points_nonneg.
Qed.

(** The block written by [_calculate_scores]: the technical score, four
    entries still at their initial 0, and the overall score. *)
Lemma calculate_scores_block (r : audit_results) :
  let t := category_score (technical_seo r) in
  scores (_calculate_scores r)
  = Some [ ("technical_seo_score", t); ("on_page_seo_score", 0);
           ("off_page_seo_score", 0); ("user_experience_score", 0);
           ("security_performance_score", 0);
           ("overall_score", overall_of [t; 0; 0; 0; 0; 0]) ].
Proof. reflexivity. Qed.

(** Whatever the report holds, the four categories after the technical
    one keep the score 0. *)
Lemma calculate_scores_other_categories (r : audit_results) :
  score_of "on_page_seo_score" (_calculate_scores r) = 0
  /\ score_of "off_page_seo_score" (_calculate_scores r) = 0
  /\ score_of "user_experience_score" (_calculate_scores r) = 0
  /\ score_of "security_performance_score" (_calculate_scores r) = 0.
Proof. repeat split; reflexivity. Qed.

Lemma Qpositive_iff (q : Q) : Qpositive q = true <-> 0 < q.
Proof.
  unfold Qpositive. rewrite negb_true_iff.
  split.
  - intros H. apply Qnot_le_lt. intros Hle.
    apply Qle_bool_iff in Hle. congruence.
  - intros H. destruct (Qle_bool q 0) eqn:E; [|reflexivity].
    apply Qle_bool_iff in E. exfalso. exact (Qlt_not_le _ _ H E).
Qed.

Lemma Qnonzero_positive (q : Q) : 0 <= q -> Qnonzero q = Qpositive q.
Proof.
  intros Hq. unfold Qnonzero.
  destruct (Qpositive q) eqn:Hp.
  - apply Qpositive_iff in Hp. apply negb_true_iff.
    destruct (Qeq_bool q 0) eqn:E; [|reflexivity].
    apply Qeq_bool_iff in E. rewrite E in Hp. exfalso. exact (Qlt_irrefl _ Hp).
  - apply negb_false_iff, Qeq_bool_iff.
    apply Qle_antisym; [|assumption].
    apply Qnot_lt_le. intros Hlt. apply Qpositive_iff in Hlt. congruence.
Qed.

(** With one entry [t >= 0] and zeros besides, the overall expression
    is the rounded mean of the positive entries. *)
Lemma overall_of_single (t : Q) :
  0 <= t ->
  overall_of [t; 0; 0; 0; 0; 0] = PyFloat.div_round1 (mean_positive [t; 0; 0; 0; 0]).
Proof.
  intros Ht. unfold overall_of, mean_positive.
  cbn [existsb List.filter].
  change (Qnonzero 0) with false. change (Qpositive 0) with false.
  rewrite !orb_false_r, (Qnonzero_positive t Ht).
  destruct (Qpositive t) eqn:Hp.
  - apply PyFloatFacts.div_round1_ext. cbn [Qsum fold_right length].
    apply Qdiv_comp; [ring | reflexivity].
  - reflexivity.
Qed.

Lemma category_scores_calculated (r : audit_results) :
  category_scores (_calculate_scores r)
  = [category_score (technical_seo r); 0; 0; 0; 0].
Proof. reflexivity. Qed.

(** C1 (amended).  [_calculate_scores] stores as technical score the
    mean of the points of the technical Findings that carry a status
    (100 for good, 50 for needs_improvement, 0 for any other status, the
    mean being 0 when no Finding carries a status), rounded to one
    decimal; and as overall score the mean, rounded to one decimal, of
    the category scores of the block that are strictly greater than zero
    (0 when there is none). *)
Theorem calculate_scores_rounded_means (r : audit_results) :
  score_of "technical_seo_score" (_calculate_scores r)
  = PyFloat.div_round1 (mean_points (technical_seo r))
  /\ score_of "overall_score" (_calculate_scores r)
     = PyFloat.div_round1 (mean_positive (category_scores (_calculate_scores r))).
Proof.
  split.
  - change (score_of "technical_seo_score" (_calculate_scores r))
      with (category_score (technical_seo r)).
    apply category_score_mean.
  - rewrite category_scores_calculated.
    change (score_of "overall_score" (_calculate_scores r))
      with (overall_of [category_score (technical_seo r); 0; 0; 0; 0; 0]).
    apply overall_of_single, category_score_nonneg.
Qed.

(** C1 as stated fails on the report with technical Findings good, poor
    and error and one good on-page Finding: the technical score is 33.3,
    not 100/3, and the on-page score is 0, not 100. *)
Lemma aggregation_rule_fails :
  ~ Spec.aggregation_rule Examples.thirds_report
      (_calculate_scores Examples.thirds_report).
Proof.
  intros [Hcats _].
  apply Forall_inv in Hcats.
  vm_compute in Hcats. discriminate Hcats.
Qed.

Lemma thirds_report_scores :
  score_of "technical_seo_score" (_calculate_scores Examples.thirds_report) = 333 # 10
  /\ mean_points (technical_seo Examples.thirds_report) == 100 # 3
  /\ score_of "on_page_seo_score" (_calculate_scores Examples.thirds_report) = 0
  /\ mean_points (on_page_seo Examples.thirds_report) == 100
  /\ score_of "overall_score" (_calculate_scores Examples.thirds_report) = 333 # 10.
Proof. repeat split; vm_compute; reflexivity. Qed.

(** C2 is violated on a report whose only Finding is a good on-page one:
    the rule applied to the on-page Findings gives 100, the block holds
    0 (and so the overall score is 0 as well). *)
Theorem on_page_score_left_at_zero :
  category_score (on_page_seo Examples.on_page_only_report) = 1000 # 10
  /\ score_of "on_page_seo_score" (_calculate_scores Examples.on_page_only_report) = 0
  /\ score_of "overall_score" (_calculate_scores Examples.on_page_only_report) == 0
  /\ ~ Spec.every_category_scored Examples.on_page_only_report
        (_calculate_scores Examples.on_page_only_report).
Proof.
  split; [vm_compute; reflexivity|].
  split; [vm_compute; reflexivity|].
  split; [vm_compute; reflexivity|].
  intros Hall. apply Forall_inv_tail, Forall_inv in Hall.
  vm_compute in Hall. discriminate Hall.
Qed.

End ScoringFacts.


(** ** Link probe *)

Module ProbeFacts.

Import Auditor.

Section Probe.

Variable W : world.
Variable A : auditor.

Import Spec.

(** One iteration, in terms of what the anchor contributes. *)
Lemma probe_step_spec (acc : probe) (link : node) :
  probe_step W A acc link
  = mk_probe
      (internal acc
       ++ List.filter (mentions_domain A) (opt_list (status_failure W A link)))
      (external acc
       ++ List.filter (fun e => negb (mentions_domain A e))
            (opt_list (status_failure W A link)))
      (total_checked acc + bool_count (is_checked W A link))
      (broken_count acc + Z.of_nat (length (opt_list (status_failure W A link)))
       + bool_count (check_raised W A link)).
Proof.
  unfold probe_step, Spec.status_failure, Spec.check_raised, Spec.is_checked,
    Spec.checked_url.
  destruct acc as [ins outs tc bc]. cbn [internal external total_checked broken_count].
  destruct (Soup.attr "href" link) as [href|]; cbn [opt_list List.filter length bool_count].
  2: { rewrite !app_nil_r. f_equal; lia. }
  destruct (PyStr.is_empty href || PyStr.startswith_any _ href);
    cbn [opt_list List.filter length bool_count].
  { rewrite !app_nil_r. f_equal; lia. }
  destruct (session_head W (urljoin W (self_url A) href)) as [code|e];
    cbn [opt_list List.filter length bool_count].
  2: { rewrite !app_nil_r. f_equal; lia. }
  destruct (400 <=? code)%Z; cbn [opt_list List.filter length bool_count].
  2: { rewrite !app_nil_r. f_equal; lia. }
  unfold Spec.mentions_domain. cbn [Spec.entry_url Dict.get String.eqb Ascii.eqb Bool.eqb].
  destruct (PyStr.contains (self_domain A) (urljoin W (self_url A) href));
    cbn [negb]; rewrite ?app_nil_r; f_equal; lia.
Qed.

Lemma omap_cons_opt {X Y : Type} (f : X -> option Y) (x : X) (l : list X) :
  omap f (x :: l) = opt_list (f x) ++ omap f l.
Proof. cbn. destruct (f x); reflexivity. Qed.

Lemma filter_length_cons {X : Type} (f : X -> bool) (x : X) (l : list X) :
  Z.of_nat (length (List.filter f (x :: l)))
  = (bool_count (f x) + Z.of_nat (length (List.filter f l)))%Z.
Proof. cbn. destruct (f x); cbn [length bool_count]; lia. Qed.

(** The loop over any list of anchors, from any counters. *)
Lemma probe_fold (links : list node) (acc : probe) :
  fold_left (probe_step W A) links acc
  = mk_probe
      (internal acc ++ List.filter (mentions_domain A) (omap (status_failure W A) links))
      (external acc
       ++ List.filter (fun e => negb (mentions_domain A e))
            (omap (status_failure W A) links))
      (total_checked acc + Z.of_nat (length (List.filter (is_checked W A) links)))
      (broken_count acc + Z.of_nat (length (omap (status_failure W A) links))
       + Z.of_nat (length (List.filter (check_raised W A) links))).
Proof.
  revert acc. induction links as [|link links IH]; intros acc.
  - cbn. rewrite !app_nil_r. destruct acc; cbn. f_equal; lia.
  - cbn [fold_left]. rewrite IH, probe_step_spec.
    cbn [internal external total_checked broken_count].
    rewrite omap_cons_opt, !List.filter_app, !filter_length_cons, length_app,
      <- !app_assoc.
    f_equal; lia.
Qed.

(** What [probe_links] returns, field by field. *)
Lemma probe_links_spec (s : soup) :
  let links := Spec.sampled_links s in
  let p := probe_links W A s in
  internal p = List.filter (mentions_domain A) (omap (status_failure W A) links)
  /\ external p
     = List.filter (fun e => negb (mentions_domain A e))
         (omap (status_failure W A) links)
  /\ total_checked p = Z.of_nat (length (List.filter (is_checked W A) links))
  /\ broken_count p
     = (Z.of_nat (length (omap (status_failure W A) links))
        + Z.of_nat (length (List.filter (check_raised W A) links)))%Z.
Proof.
  unfold probe_links. fold (Spec.sampled_links s).
  rewrite probe_fold. cbn. repeat split; lia.
Qed.

Lemma filter_split_length {X : Type} (f : X -> bool) (l : list X) :
  (length (List.filter f l) + length (List.filter (fun x => negb (f x)) l))%nat
  = length l.
Proof.
  induction l as [|x l IH]; [reflexivity|].
  cbn. destruct (f x); cbn; lia.
Qed.

(** The count exceeds the two lists by the number of checks that raised. *)
Lemma broken_count_split (s : soup) :
  let p := probe_links W A s in
  broken_count p
  = (Z.of_nat (length (internal p) + length (external p))
     + Z.of_nat (length (List.filter (check_raised W A) (Spec.sampled_links s))))%Z.
Proof.
  destruct (probe_links_spec s) as (Hi & He & _ & Hb).
  cbn zeta. rewrite Hb, Hi, He, filter_split_length. reflexivity.
Qed.

(** At most 20 checks are issued. *)
Lemma total_checked_bound (s : soup) :
  (0 <= total_checked (probe_links W A s) <= 20)%Z.
Proof.
  destruct (probe_links_spec s) as (_ & _ & Ht & _). cbn zeta in Ht. rewrite Ht.
  pose proof (List.filter_length_le (is_checked W A) (Spec.sampled_links s)) as Hle.
  assert (length (Spec.sampled_links s) <= 20)%nat
    by (unfold Spec.sampled_links; apply length_firstn_le || (rewrite length_firstn; lia)).
  lia.
Qed.

End Probe.

(** C3 is violated when a check raises: the anchor is counted as broken
    and entered in neither list.  One anchor, one timeout: the count is
    1 and both lists are empty. *)
Theorem timed_out_link_counted_not_listed :
  let p := probe_links Examples.timeout_world Examples.example_auditor
             Examples.one_link_page in
  total_checked p = 1%Z
  /\ broken_count p = 1%Z
  /\ internal p = []
  /\ external p = []
  /\ ~ Spec.count_matches_lists p.
Proof.
  cbn zeta. repeat split; try reflexivity.
  unfold Spec.count_matches_lists. vm_compute. discriminate.
Qed.

(** C7 (amended).  A broken link recorded by the probe (its check
    answered with a status of 400 or more) is classified as internal
    exactly when the audited domain occurs as a substring of its resolved
    url, and as external otherwise. *)
Theorem broken_links_classified_by_substring (W : world) (A : auditor) (s : soup) :
  let failures := omap (Spec.status_failure W A) (Spec.sampled_links s) in
  let p := probe_links W A s in
  internal p = List.filter (Spec.mentions_domain A) failures
  /\ external p = List.filter (fun e => negb (Spec.mentions_domain A e)) failures.
Proof.
  destruct (probe_links_spec W A s) as (Hi & He & _).
  split; assumption.
Qed.

(** C7 as stated fails: with the audited domain [example.com], a broken
    link to [https://notexample.com/page] is classified as internal,
    although its host is [notexample.com]. *)
Lemma lookalike_host_classified_internal :
  ~ Spec.classified_by_host Examples.example_auditor
      (probe_links Examples.not_found_world Examples.example_auditor
         Examples.lookalike_page).
Proof.
  intros [Hin _]. apply Forall_inv in Hin.
  vm_compute in Hin. discriminate Hin.
Qed.

Lemma lookalike_probe :
  let p := probe_links Examples.not_found_world Examples.example_auditor
             Examples.lookalike_page in
  internal p = [ VDict [ ("url", VStr "https://notexample.com/page");
                         ("status_code", VInt 404);
                         ("text", VStr "Partner") ] ]
  /\ external p = []
  /\ Url.netloc "https://notexample.com/page" = "notexample.com".
Proof. repeat split; reflexivity. Qed.

End ProbeFacts.


(** ** Failure isolation *)

Module AuditorFacts.

Import Auditor.

Lemma get_set_eq {X : Type} (k : string) (v : X) (d : list (string * X)) :
  Dict.get k (Dict.set k v d) = Some v.
Proof.
  induction d as [|[k' v'] d IH]; cbn.
  - now rewrite String.eqb_refl.
  - destruct (String.eqb k k') eqn:E; cbn; rewrite ?String.eqb_refl; [reflexivity|].
    now rewrite E.
Qed.

Lemma get_set_ne {X : Type} (k k' : string) (v : X) (d : list (string * X)) :
  k <> k' -> Dict.get k (Dict.set k' v d) = Dict.get k d.
Proof.
  intros Hne. apply String.eqb_neq in Hne.
  induction d as [|[k2 v2] d IH]; cbn.
  - now rewrite Hne.
  - destruct (String.eqb k' k2) eqn:E; cbn.
    + apply String.eqb_eq in E. subst k2. now rewrite Hne.
    + destruct (String.eqb k k2); [reflexivity | exact IH].
Qed.

Lemma run_checks_app (pre post : list check) (cat : dict) (s : soup) :
  run_checks (pre ++ post) cat s
  = run_checks post (fst (run_checks pre cat s)) (snd (run_checks pre cat s)).
Proof.
  revert cat s. induction pre as [|c pre IH]; intros cat s; [reflexivity|].
  cbn. destruct (check_body c s) as [[v|e] s']; apply IH.
Qed.

(** Later checks do not touch the entries of other keys. *)
Lemma run_checks_keeps (key : string) (post : list check) (cat : dict) (s : soup) :
  ~ In key (map check_key post) ->
  Dict.get key (fst (run_checks post cat s)) = Dict.get key cat.
Proof.
  revert cat s. induction post as [|c post IH]; intros cat s Hnot; [reflexivity|].
  cbn in Hnot. cbn.
  destruct (check_body c s) as [[v|e] s']; rewrite IH by tauto;
    apply get_set_ne; intros Heq; apply Hnot; left; congruence.
Qed.

(** A check that raises leaves what its handler builds under its key,
    and the remaining checks still run. *)
Lemma run_checks_records_failure (pre post : list check) (c : check)
  (cat : dict) (s s' : soup) (e : string) :
  check_body c (snd (run_checks pre cat s)) = (Raise e, s') ->
  ~ In (check_key c) (map check_key post) ->
  Dict.get (check_key c) (fst (run_checks (pre ++ c :: post) cat s))
  = Some (check_handler c e).
Proof.
  intros Hraise Hfresh. rewrite run_checks_app. cbn. rewrite Hraise.
  rewrite run_checks_keeps by assumption. apply get_set_eq.
Qed.

Lemma NoDup_app_cons_fresh {X : Type} (pre post : list X) (x : X) :
  List.NoDup (pre ++ x :: post) -> ~ In x post.
Proof.
  intros Hnd Hin. apply List.NoDup_remove_2 in Hnd.
  apply Hnd, in_or_app. now right.
Qed.

Lemma module_keys_distinct (W : world) (A : auditor) (module : list check) :
  In module (audit_modules W A) -> List.NoDup (map check_key module).
Proof.
  intros Hin. cbn in Hin.
  destruct Hin as [<-|[<-|[<-|[<-|[<-|[]]]]]]; cbn;
    repeat (constructor; [cbn; intuition discriminate|]); constructor.
Qed.

(** Every handler stores a dictionary with the single key [error]; but
    for [response_time] it holds [str(e)]. *)
Lemma module_handlers (W : world) (A : auditor) (module : list check) (c : check)
  (e : string) :
  In module (audit_modules W A) -> In c module ->
  exists description,
    check_handler c e = VDict [("error", VStr description)]
    /\ (check_key c <> "response_time" -> description = e).
Proof.
  intros Hmod Hc. cbn in Hmod.
  destruct Hmod as [<-|[<-|[<-|[<-|[<-|[]]]]]]; cbn in Hc;
    repeat (destruct Hc as [<-|Hc];
            [ first [ now (exists e; split; [reflexivity | intros _; reflexivity])
                    | (eexists; split; [reflexivity | cbn; congruence]) ] | ]);
    destruct Hc.
Qed.

(** C4 (amended).  When the body of a check of one of the five audit
    modules raises, the module still runs to its end and its category
    holds, under the key of the check, a dictionary with the single key
    [error] (so without [status] and without [recommendation]); the value
    of [error] is the failure description [str(e)], except for
    [response_time], where it is a fixed message. *)
Theorem analyzer_failure_becomes_error_entry (W : world) (A : auditor)
  (module pre post : list check) (c : check) (s s' : soup) (e : string) :
  In module (audit_modules W A) ->
  module = pre ++ c :: post ->
  check_body c (snd (run_checks pre [] s)) = (Raise e, s') ->
  exists description,
    Dict.get (check_key c) (fst (run_checks module [] s))
    = Some (VDict [("error", VStr description)])
    /\ (check_key c <> "response_time" -> description = e)
    /\ ~ Spec.error_status_finding (VDict [("error", VStr description)]) e.
Proof.
  intros Hmod Hsplit Hraise.
  destruct (module_handlers W A module c e Hmod) as (description & Hshape & Hmsg).
  { rewrite Hsplit. apply in_or_app. right. now left. }
  exists description. split; [|split].
  - rewrite <- Hshape, Hsplit.
    apply run_checks_records_failure with (s' := s'); [assumption|].
    apply NoDup_app_cons_fresh with (pre := map check_key pre).
    rewrite <- (map_cons check_key c post), <- map_app, <- Hsplit.
    now apply module_keys_distinct with (W := W) (A := A).
  - exact Hmsg.
  - cbn. intros [Hstatus _]. discriminate Hstatus.
Qed.

(** The sitemap request is refused: the check before it ran, the
    failure is stored under [xml_sitemap]. *)
Lemma refused_sitemap_recorded :
  exists description,
    Dict.get "xml_sitemap"
      (fst (run_checks (technical_checks Examples.no_sitemap_world Examples.example_auditor)
              [] []))
    = Some (VDict [("error", VStr description)])
    /\ ("xml_sitemap" <> "response_time" -> description = "Connection refused")
    /\ ~ Spec.error_status_finding (VDict [("error", VStr description)])
          "Connection refused".
Proof.
  apply (analyzer_failure_becomes_error_entry
           Examples.no_sitemap_world Examples.example_auditor
           (technical_checks Examples.no_sitemap_world Examples.example_auditor)
           (firstn 4 (technical_checks Examples.no_sitemap_world Examples.example_auditor))
           (skipn 5 (technical_checks Examples.no_sitemap_world Examples.example_auditor))
           (guarded "xml_sitemap"
              (xml_sitemap Examples.no_sitemap_world Examples.example_auditor))
           [] [] "Connection refused").
  - left. reflexivity.
  - reflexivity.
  - reflexivity.
Defined.

(** C4 as stated fails: auditing [example.com] when the sitemap request
    is refused, the Finding stored for [xml_sitemap] has neither the
    status [error] nor a recommendation. *)
Lemma refused_sitemap_has_no_status :
  match Dict.get "xml_sitemap"
          (technical_seo (audit_website Examples.no_sitemap_world None "example.com"))
  with
  | Some finding => ~ Spec.error_status_finding finding "Connection refused"
  | None => False
  end.
Proof. vm_compute. intros [Hstatus _]. discriminate Hstatus. Qed.

(** C5 (amended).  When the fetch of the page fails, [audit_website]
    returns, without raising, the report it had initialised, with the
    failure description under [error]: no analyzer runs, the five
    category mappings and [pagespeed_insights] are empty and there is no
    scores block. *)
Theorem fetch_failure_returns_bare_report (W : world) (api_key : option string)
  (url0 e : string) :
  session_get W (normalize_url url0) = Raise e ->
  audit_website W api_key url0
  = mk_results (normalize_url url0) (Url.netloc (normalize_url url0)) (now_iso W)
      [] [] [] [] [] [] None (Some e).
Proof. intros Hfetch. unfold audit_website. now rewrite Hfetch. Qed.

Lemma offline_audit_is_bare :
  audit_website Examples.offline_world None "example.com"
  = mk_results "https://example.com" "example.com" "2024-01-01T12:00:00"
      [] [] [] [] [] [] None (Some "Connection timed out").
Proof.
  apply (fetch_failure_returns_bare_report Examples.offline_world None
           "example.com" "Connection timed out").
  reflexivity.
Defined.

(** C5 as stated fails: after a failed fetch no category holds any
    Finding. *)
Lemma offline_audit_has_no_findings :
  ~ Spec.degraded_with_findings
      (audit_website Examples.offline_world None "example.com").
Proof.
  intros [_ Hcats]. apply Forall_inv in Hcats. now apply Hcats.
Qed.

End AuditorFacts.

(** ** The shared document *)

Module SoupFacts.

Import Auditor.

(** Induction on the tree, with the hypothesis for every child. *)
Lemma node_forall_ind (P : node -> Prop) :
  (forall t, P (Text t)) ->
  (forall nm ats cs, Forall P cs -> P (Tag nm ats cs)) ->
  forall n, P n.
Proof.
  intros Htext Htag. fix IH 1. intros [t|nm ats cs].
  - apply Htext.
  - apply Htag. induction cs as [|c cs IHcs]; constructor; [apply IH | exact IHcs].
Qed.

Lemma filter_flat_map_length {X Y : Type} (p : Y -> bool) (f : X -> list Y)
  (g : X -> nat) (l : list X) :
  Forall (fun x => length (List.filter p (f x)) = g x) l ->
  length (List.filter p (flat_map f l)) = list_sum (map g l).
Proof.
  induction 1 as [|x l Hx _ IH]; [reflexivity|].
  cbn. rewrite List.filter_app, length_app, Hx, IH. reflexivity.
Qed.

Lemma tags_of_count (p : node -> bool) (n : node) :
  length (List.filter p (Soup.tags_of n)) = Soup.count_tags p n.
Proof.
  induction n as [t|nm ats cs IH] using node_forall_ind; [reflexivity|].
  cbn [Soup.tags_of Soup.count_tags List.filter].
  rewrite <- (filter_flat_map_length p Soup.tags_of (Soup.count_tags p) cs IH).
  destruct (p (Tag nm ats cs)); reflexivity.
Qed.

(** [find_all] returns as many tags as the tree holds matches. *)
Lemma find_all_length (p : node -> bool) (s : soup) :
  length (Soup.find_all p s) = Soup.count p s.
Proof.
  unfold Soup.find_all, Soup.count.
  apply filter_flat_map_length, Forall_forall. intros n _. apply tags_of_count.
Qed.

(** An analyzer built with [reads] returns the tree it was given. *)
Lemma reads_keeps_tree {X : Type} (f : soup -> X) (s : soup) :
  snd (reads f s) = s.
Proof. reflexivity. Qed.

(** The content analyzer hands on the pruned tree. *)
Lemma analyze_content_prunes (s : soup) :
  snd (_analyze_content s) = Soup.decompose_all ["script"; "style"] s.
Proof. reflexivity. Qed.

(** Every check of the five modules other than [content_analysis] hands
    on the tree it received, whether it returns or raises. *)
Lemma other_checks_keep_tree (W : world) (A : auditor) (module : list check)
  (c : check) (s : soup) :
  In module (audit_modules W A) -> In c module ->
  check_key c <> "content_analysis" ->
  snd (check_body c s) = s.
Proof.
  intros Hmod Hc Hkey. cbn in Hmod.
  destruct Hmod as [<-|[<-|[<-|[<-|[<-|[]]]]]]; cbn in Hc;
    repeat (destruct Hc as [<-|Hc];
            [ first [ reflexivity
                    | now (cbn in Hkey; congruence)
                    | (cbn; unfold xml_sitemap, robots_txt, bind, lift;
                       destruct (session_get W _); reflexivity) ] | ]);
    destruct Hc.
Qed.

(** C6 is violated by the content analyzer.  On a page with a viewport
    tag and one media query in a [style] element, the responsive-design
    analyzer finds 1 [@media] and reports good on the parsed tree, but
    finds 0 and reports needs_improvement on the tree the content
    analyzer leaves behind; the pipeline runs them in the second order. *)
Theorem content_analysis_hides_media_queries :
  let before := _check_responsive_design Examples.media_page in
  let edited := snd (_analyze_content Examples.media_page) in
  let after := _check_responsive_design edited in
  edited <> Examples.media_page
  /\ Dict.get "css_media_queries_found" before = Some (VInt 1)
  /\ Dict.get "status" before = Some (VStr "good")
  /\ Dict.get "css_media_queries_found" after = Some (VInt 0)
  /\ Dict.get "status" after = Some (VStr "needs_improvement")
  /\ Dict.get "responsive_design"
       (user_experience (audit_website Examples.media_world None "example.com"))
     = Some (VDict after).
Proof.
  cbn zeta. split; [vm_compute; discriminate|].
  repeat split; vm_compute; reflexivity.
Qed.

(** C10.  [total_schemas] is the number of JSON-LD script elements
    (whether or not their content parses) plus the number of elements
    with an [itemtype] attribute plus the number of elements with a
    [property] attribute; the status is good exactly when that total is
    positive.  Only the reported samples are shorter: at most 10 RDFa
    properties, and the JSON-LD blocks that parsed. *)
Theorem structured_data_counts_every_block (W : world) (s : soup) :
  let d := _analyze_structured_data W s in
  let json_ld := Soup.count is_json_ld s in
  let microdata := Soup.count (Soup.has_attr "itemtype") s in
  let rdfa := Soup.count (Soup.has_attr "property") s in
  Dict.get "total_schemas" d = Some (vnat (json_ld + microdata + rdfa))
  /\ (Dict.get "status" d = Some (VStr "good") <-> 0 < json_ld + microdata + rdfa)
  /\ (Dict.get "status" d = Some (VStr "needs_improvement")
      <-> json_ld + microdata + rdfa = 0)
  /\ (exists sample, Dict.get "rdfa_properties" d = Some (VList sample)
                     /\ length sample = Nat.min 10 rdfa)
  /\ (exists entries, Dict.get "json_ld_scripts" d = Some (VList entries)
                      /\ length entries <= json_ld).
Proof.
  cbn zeta. unfold _analyze_structured_data.
  rewrite !find_all_length.
  set (total := Soup.count is_json_ld s + Soup.count (Soup.has_attr "itemtype") s
                + Soup.count (Soup.has_attr "property") s).
  cbn [Dict.get String.eqb Ascii.eqb Bool.eqb].
  split; [reflexivity|]. split; [|split; [|split]].
  - destruct (Nat.ltb_spec 0 total) as [Hpos|Hzero].
    + split; [intros _; exact Hpos | reflexivity].
    + split; [discriminate | lia].
  - destruct (Nat.ltb_spec 0 total) as [Hpos|Hzero].
    + split; [discriminate | lia].
    + split; [lia | reflexivity].
  - eexists. split; [reflexivity|].
    rewrite length_map, length_firstn, find_all_length. reflexivity.
  - eexists. split; [reflexivity|].
    rewrite <- (find_all_length is_json_ld s).
    generalize (Soup.find_all is_json_ld s). intros l.
    induction l as [|x l IH]; cbn; [lia|].
    destruct (json_ld_entry W x); cbn; lia.
Qed.

(** A page whose only structured data is a JSON-LD block that does not
    parse: nothing is reported for it, and the status is good. *)
Lemma malformed_json_ld_is_good (W : world) :
  json_loads W (Some "{ not json") = Raise "Expecting value" ->
  let d := _analyze_structured_data W Examples.malformed_json_ld_page in
  Dict.get "json_ld_scripts" d = Some (VList [])
  /\ Dict.get "total_schemas" d = Some (VInt 1)
  /\ Dict.get "status" d = Some (VStr "good").
Proof.
  intros Hparse. cbn zeta. unfold _analyze_structured_data.
  cbn. unfold json_ld_entry. cbn. rewrite Hparse. repeat split; reflexivity.
Qed.

End SoupFacts.

(** ** Job manager *)

Module WebFacts.

Import Web.

(** The identifier is a function of the second of submission and of the
    hash of the url modulo 10000. *)
Lemma audit_id_collision (hash : string -> Z) (t1 t2 : datetime) (u1 u2 : string) :
  strftime t1 = strftime t2 ->
  (hash u1 mod 10000 = hash u2 mod 10000)%Z ->
  make_audit_id hash t1 u1 = make_audit_id hash t2 u2.
Proof. intros Ht Hh. unfold make_audit_id. now rewrite Ht, Hh. Qed.

Lemma same_second : strftime Examples.first_click = strftime Examples.second_click.
Proof. reflexivity. Qed.

(** C8 is violated by two submissions of one url within one second of
    the clock: whatever [hash] is, both replies carry the same
    identifier, for two distinct threads. *)
Theorem same_second_submissions_share_identifier (hash : string -> Z) (srv : server) :
  let first := start_audit hash Examples.first_click Examples.submission srv in
  let second := start_audit hash Examples.second_click Examples.submission (snd first) in
  reply_field "audit_id" (fst first)
  = Some (VStr (make_audit_id hash Examples.first_click "example.com"))
  /\ reply_field "audit_id" (fst second) = reply_field "audit_id" (fst first)
  /\ threads (snd second)
     = threads srv
       ++ [ mk_job (make_audit_id hash Examples.first_click "example.com")
              "example.com" None;
            mk_job (make_audit_id hash Examples.first_click "example.com")
              "example.com" None ].
Proof.
  cbn zeta.
  assert (Hid : make_audit_id hash Examples.second_click "example.com"
                = make_audit_id hash Examples.first_click "example.com").
  { apply audit_id_collision; [symmetry; exact same_second | reflexivity]. }
  unfold start_audit, Examples.submission.
  change (get_stripped "url" (VDict [("url", VStr "example.com")]))
    with (@Ok string "example.com").
  change (get_stripped "api_key" (VDict [("url", VStr "example.com")]))
    with (@Ok string "").
  cbn [PyStr.is_empty fst snd reply_field Dict.get String.eqb Ascii.eqb Bool.eqb
       threads audit_results_cache].
  rewrite Hid, <- app_assoc. repeat split; reflexivity.
Qed.

(** A submission does not write to the cache. *)
Lemma start_audit_keeps_cache (hash : string -> Z) (now : datetime)
  (data : result value) (srv : server) :
  audit_results_cache (snd (start_audit hash now data srv)) = audit_results_cache srv.
Proof.
  unfold start_audit. destruct data as [d|e]; [|reflexivity].
  destruct (get_stripped "url" d) as [u|e]; [|reflexivity].
  destruct (get_stripped "api_key" d) as [k|e]; [|reflexivity].
  destruct (PyStr.is_empty u); reflexivity.
Qed.

(** C9.  The status route answers "completed" exactly when the cache
    holds a report under the identifier, and "running" exactly when it
    does not; the identifier is echoed.  So the answer for an identifier
    that was never issued is the answer for a job that has not finished,
    and no answer is "completed" before a report is cached under that
    identifier. *)
Theorem status_completed_iff_cached (srv : server) (id : string) :
  (reply_field "status" (audit_status srv id) = Some (VStr "completed")
   <-> is_Some (audit_results_cache srv !! id))
  /\ (reply_field "status" (audit_status srv id) = Some (VStr "running")
      <-> audit_results_cache srv !! id = None)
  /\ reply_field "audit_id" (audit_status srv id) = Some (VStr id).
Proof.
  unfold audit_status.
  destruct (audit_results_cache srv !! id) as [c|] eqn:Hc; cbn.
  - split; [|split]; [split; eauto | split; discriminate | reflexivity].
  - split; [|split]; [| split; reflexivity | reflexivity].
    split; [discriminate | intros [c Hsome]; discriminate].
Qed.

(** Right after a submission, the status of the new identifier is what
    it was before the submission. *)
Lemma status_unchanged_by_submission (hash : string -> Z) (now : datetime)
  (data : result value) (srv : server) (id : string) :
  audit_status (snd (start_audit hash now data srv)) id = audit_status srv id.
Proof. unfold audit_status. now rewrite start_audit_keeps_cache. Qed.

(** Once its thread has finished, a job is reported as completed. *)
Lemma status_after_run (render : audit_results -> string) (W : world) (j : job)
  (srv : server) :
  reply_field "status" (audit_status (run_audit render W j srv) (job_id j))
  = Some (VStr "completed").
Proof.
  unfold audit_status, run_audit. cbn [audit_results_cache].
  now rewrite lookup_insert_eq.
Qed.

(** In every run, the cache holds a report under an identifier exactly
    when a thread with that identifier has finished. *)
Lemma cached_iff_finished (hash : string -> Z) (render : audit_results -> string)
  (events : list event) (id : string) :
  is_Some (audit_results_cache (fst (run hash render events)) !! id)
  <-> In id (snd (run hash render events)).
Proof.
  unfold run.
  assert (Hinv : forall st,
             (forall k, is_Some (audit_results_cache (fst st) !! k) <-> In k (snd st)) ->
             forall k,
               is_Some (audit_results_cache
                          (fst (fold_left (step_logged hash render) events st)) !! k)
               <-> In k (snd (fold_left (step_logged hash render) events st))).
  { induction events as [|ev events IH]; intros st Hst; [exact Hst|].
    cbn [fold_left]. apply IH. intros k. unfold step_logged. cbn [fst snd].
    destruct ev as [now data|W i]; cbn [step finished_by].
    - rewrite start_audit_keeps_cache. apply Hst.
    - destruct (threads (fst st) !! i) as [j|]; [|apply Hst].
      cbn [audit_results_cache run_audit app In].
      destruct (String.string_dec (job_id j) k) as [->|Hne].
      + rewrite lookup_insert_eq. split; [now left | eauto].
      + rewrite lookup_insert_ne by assumption. rewrite Hst. tauto. }
  apply Hinv. intros k. cbn. rewrite lookup_empty. split; [intros [? ?]; discriminate | tauto].
Qed.

(** An identifier that was never issued and the identifier of a thread
    still running get the same answer, up to the identifier echoed. *)
Lemma unknown_like_unfinished (srv : server) (j : job) (unknown : string) :
  In j (threads srv) ->
  audit_results_cache srv !! job_id j = None ->
  audit_results_cache srv !! unknown = None ->
  reply_field "status" (audit_status srv unknown)
  = reply_field "status" (audit_status srv (job_id j))
  /\ reply_field "status" (audit_status srv unknown) = Some (VStr "running").
Proof.
  intros _ Hjob Hunknown. unfold audit_status. rewrite Hjob, Hunknown.
  split; reflexivity.
Qed.

(** As long as no thread has finished, the cache is empty and every
    status is "running". *)
Lemma running_until_a_thread_finishes (hash : string -> Z)
  (render : audit_results -> string) (events : list event) (id : string) :
  forallb is_submission events = true ->
  reply_field "status"
    (audit_status (fold_left (step hash render) events initial_server) id)
  = Some (VStr "running").
Proof.
  intros Hsub.
  assert (Hcache : forall srv,
             audit_results_cache (fold_left (step hash render) events srv)
             = audit_results_cache srv).
  { induction events as [|ev events IH]; intros srv; [reflexivity|].
    cbn in Hsub. apply andb_prop in Hsub. destruct Hsub as [Hev Hrest].
    cbn [fold_left]. rewrite (IH Hrest).
    destruct ev; [apply start_audit_keeps_cache | discriminate]. }
  unfold audit_status. rewrite Hcache. reflexivity.
Qed.

End WebFacts.

(** * Further properties of the code *)

(** ** Bounds on rounded quotients *)

Module PyFloatBounds.

Import PyFloat.
Local Open Scope Q_scope.

(** Rounding to the nearest integer does not pass an integer bound. *)
Lemma round_half_even_le (q : Q) (n : Z) :
  q <= inject_Z n -> (round_half_even q <= n)%Z.
Proof.
  intros Hq. unfold round_half_even.
  assert (Hf : (Qfloor q <= n)%Z).
  { rewrite <- (Qfloor_Z n). now apply Qfloor_resp_le. }
  destruct (Z.eq_dec (Qfloor q) n) as [Heq|Hne].
  - assert (Hzero : q - inject_Z (Qfloor q) <= 0).
    { rewrite Heq. unfold Qminus. rewrite <- (Qplus_opp_r (inject_Z n)).
      apply Qplus_le_compat; [exact Hq | apply Qle_refl]. }
    destruct (Qcompare_spec (q - inject_Z (Qfloor q)) (1 # 2)) as [He|Hl|Hg].
    + exfalso. rewrite He in Hzero. now apply Hzero.
    + lia.
    + exfalso. apply (Qlt_not_le _ _ Hg).
      apply Qle_trans with 0; [exact Hzero | discriminate].
  - destruct (Qcompare _ _); [destruct (Z.even _)| |]; lia.
Qed.

Lemma pow2_pos (k : Z) : (0 <= k)%Z -> 0 < inject_Z (2 ^ k).
Proof.
  intros Hk. change 0 with (inject_Z 0). rewrite <- Zlt_Qlt.
  apply Z.pow_pos_nonneg; lia.
Qed.

(** The exponent chosen for a quotient of at most [n] is small. *)
Lemma floor_log2_le (a b : positive) (n : Z) :
  (0 < n)%Z -> Zpos a # b <= inject_Z n ->
  (floor_log2 a b <= Z.log2 n + 1)%Z.
Proof.
  intros Hn Hq.
  assert (Hab : (Zpos a <= n * Zpos b)%Z).
  { unfold Qle in Hq. cbn in Hq. lia. }
  assert (Hlog : (Z.log2 (Zpos a) <= Z.log2 n + Z.log2 (Zpos b) + 1)%Z).
  { apply Z.le_trans with (Z.log2 (n * Zpos b)).
    - apply Z.log2_le_mono. exact Hab.
    - apply Z.log2_mul_above; lia. }
  unfold floor_log2.
  destruct (0 <=? _)%Z; destruct (_ <=? _)%Z; lia.
Qed.

(** A positive quotient of at most [n] is rounded to a double of at most
    [n], as long as [n] is below [2^51]. *)
Lemma nearest_double_le (a b : positive) (n : Z) :
  (0 < n)%Z -> (Z.log2 n < 51)%Z -> Zpos a # b <= inject_Z n ->
  nearest_double a b <= inject_Z n.
Proof.
  intros Hn Hsmall Hq.
  pose proof (floor_log2_le a b n Hn Hq) as He.
  unfold nearest_double.
  set (e := floor_log2 a b) in *.
  assert (Hk : (0 < 52 - e)%Z) by lia.
  assert (Hscaled : scale2 (Zpos a # b) (52 - e) <= inject_Z (n * 2 ^ (52 - e))).
  { unfold scale2. replace (0 <=? 52 - e)%Z with true by (symmetry; apply Z.leb_le; lia).
    rewrite inject_Z_mult. apply Qmult_le_compat_r; [exact Hq|].
    apply Qlt_le_weak, pow2_pos. lia. }
  apply round_half_even_le in Hscaled.
  unfold scale2 at 1.
  replace (0 <=? e - 52)%Z with false by (symmetry; apply Z.leb_gt; lia).
  replace (- (e - 52))%Z with (52 - e)%Z by lia.
  apply Qle_shift_div_r; [apply pow2_pos; lia|].
  rewrite <- inject_Z_mult, <- Zle_Qle. exact Hscaled.
Qed.

Lemma fl_le (q : Q) (n : Z) :
  (0 < n)%Z -> (Z.log2 n < 51)%Z -> q <= inject_Z n -> fl q <= inject_Z n.
Proof.
  intros Hn Hsmall Hq. unfold fl.
  assert (Hred : Qred q <= inject_Z n) by now rewrite Qred_correct.
  destruct (Qred q) as [num den]. cbn [Qnum Qden].
  destruct num as [|a|a].
  - change 0 with (inject_Z 0). rewrite <- Zle_Qle. lia.
  - now apply nearest_double_le.
  - apply Qle_trans with 0.
    + apply (Qopp_le_compat 0), PyFloatFacts.nearest_double_nonneg.
    + change 0 with (inject_Z 0). rewrite <- Zle_Qle. lia.
Qed.

(** The number of tenths [round(_, 1)] returns for a value in [0, 100]. *)
Lemma tenths_range (x : Q) :
  0 <= x -> x <= 100 -> (0 <= round_half_even (x * 10) <= 1000)%Z.
Proof.
  intros Hlo Hhi. split.
  - apply PyFloatFacts.round_half_even_nonneg.
    apply Qmult_le_0_compat; [exact Hlo | discriminate].
  - apply round_half_even_le. change (inject_Z 1000) with (100 * 10).
    apply Qmult_le_compat_r; [exact Hhi | discriminate].
Qed.

Lemma div_round1_range (q : Q) :
  0 <= q -> q <= 100 ->
  exists k, (0 <= k <= 1000)%Z /\ div_round1 q = k # 10.
Proof.
  intros Hlo Hhi. exists (round_half_even (fl q * 10)). split; [|reflexivity].
  apply tenths_range.
  - now apply PyFloatFacts.fl_nonneg.
  - apply (fl_le q 100); [lia | vm_compute; reflexivity | exact Hhi].
Qed.

(** Rounding a score again gives the same score. *)
Lemma tenths_are_fixed (k : Z) :
  (0 <= k <= 1000)%Z -> div_round1 (k # 10) == k # 10.
Proof.
  intros Hk.
  assert (Hall : forallb (fun n => Qeq_bool (div_round1 (Z.of_nat n # 10)) (Z.of_nat n # 10))
                   (seq 0 1001) = true) by (vm_compute; reflexivity).
  rewrite forallb_forall in Hall.
  specialize (Hall (Z.to_nat k)).
  rewrite Z2Nat.id in Hall by lia.
  apply Qeq_bool_iff, Hall, in_seq. lia.
Qed.

End PyFloatBounds.

(** ** More on the scores *)

Module ScoringBounds.

Import Scoring.
Local Open Scope Q_scope.

Lemma technical_score_tenths (r : audit_results) :
  exists k, (0 <= k <= 1000)%Z /\ category_score (technical_seo r) = k # 10.
Proof.
  rewrite ScoringFacts.category_score_mean.
  apply PyFloatBounds.div_round1_range.
  - apply ScoringFacts.mean_points_nonneg.
  - apply ScoringFacts.mean_points_le_100.
Qed.

Lemma tenths_bounds (k : Z) : (0 <= k <= 1000)%Z -> 0 <= k # 10 /\ k # 10 <= 100.
Proof. intros Hk. unfold Qle. cbn. lia. Qed.

Lemma overall_is_technical (r : audit_results) :
  overall_of [category_score (technical_seo r); 0; 0; 0; 0; 0]
  == category_score (technical_seo r).
Proof.
  destruct (technical_score_tenths r) as (k & Hk & Ht).
  rewrite ScoringFacts.overall_of_single by apply ScoringFacts.category_score_nonneg.
  rewrite Ht. unfold mean_positive. cbn [List.filter].
  change (Qpositive 0) with false. cbn iota.
  destruct (Qpositive (k # 10)) eqn:Hpos.
  - rewrite (PyFloatFacts.div_round1_ext _ (k # 10)).
    + now apply PyFloatBounds.tenths_are_fixed.
    + cbn [Qsum fold_right length]. change (inject_Z (Z.of_nat 1)) with 1. field.
  - assert (Hzero : k = 0%Z).
    { destruct (Z.eq_dec k 0%Z) as [|Hne]; [assumption|].
      assert (Hp : Qpositive (k # 10) = true)
        by (apply ScoringFacts.Qpositive_iff; unfold Qlt; cbn; lia).
      congruence. }
    subst k. reflexivity.
Qed.

(** X1.  Whatever the report holds, the overall score [_calculate_scores]
    stores is equal to the technical score: the other four categories
    contribute nothing to it. *)
Theorem overall_score_is_technical_score (r : audit_results) :
  score_of "overall_score" (_calculate_scores r)
  == score_of "technical_seo_score" (_calculate_scores r).
Proof.
  change (score_of "overall_score" (_calculate_scores r))
    with (overall_of [category_score (technical_seo r); 0; 0; 0; 0; 0]).
  change (score_of "technical_seo_score" (_calculate_scores r))
    with (category_score (technical_seo r)).
  apply overall_is_technical.
Qed.

(** X2.  Every entry of the scores block lies between 0 and 100, and the
    block has the six keys in their fixed order. *)
Theorem scores_block_in_range (r : audit_results) :
  exists block,
    scores (_calculate_scores r) = Some block
    /\ map fst block = category_keys ++ ["overall_score"]
    /\ Forall (fun q => 0 <= q /\ q <= 100) (map snd block).
Proof.
  eexists. split; [apply ScoringFacts.calculate_scores_block|].
  split; [reflexivity|].
  destruct (technical_score_tenths r) as (k & Hk & Ht).
  pose proof (tenths_bounds k Hk) as [Hlo Hhi]. rewrite <- Ht in Hlo, Hhi.
  cbn [map snd].
  constructor; [split; assumption|].
  do 4 (constructor; [split; discriminate|]).
  constructor; [|constructor].
  rewrite overall_is_technical. split; assumption.
Qed.

Lemma set_fresh {X : Type} (k : string) (v : X) (d : list (string * X)) :
  Dict.get k d = None -> Dict.set k v d = d ++ [(k, v)].
Proof.
  induction d as [|[k' v'] d IH]; intros Hget; [reflexivity|].
  cbn in *. destruct (String.eqb k k'); [discriminate|].
  now rewrite IH.
Qed.

Lemma statuses_app (c1 c2 : dict) : statuses (c1 ++ c2) = statuses c1 ++ statuses c2.
Proof. unfold statuses. apply flat_map_app. Qed.

(** X3.  A Finding without a status (such as the [{'error': ...}] entry
    an analyzer failure leaves) does not count in the score of its
    category: adding it under a new key leaves the score as it was. *)
Theorem statusless_finding_leaves_score (cat : dict) (k : string) (d : dict) :
  Dict.get k cat = None ->
  Dict.get "status" d = None ->
  category_score (Dict.set k (VDict d) cat) = category_score cat.
Proof.
  intros Hfresh Hstatus.
  rewrite (set_fresh k (VDict d) cat Hfresh).
  rewrite !ScoringFacts.category_score_mean. unfold mean_points.
  rewrite statuses_app. unfold statuses at 2. cbn [flat_map snd].
  rewrite Hstatus. cbn [app]. now rewrite !app_nil_r.
Qed.

Lemma failed_check_leaves_score :
  category_score
    (Dict.set "xml_sitemap" (VDict [("error", VStr "Connection refused")])
       [("https_ssl", VDict [("status", VStr "good")])])
  = category_score [("https_ssl", VDict [("status", VStr "good")])].
Proof.
  apply (statusless_finding_leaves_score
           [("https_ssl", VDict [("status", VStr "good")])]
           "xml_sitemap" [("error", VStr "Connection refused")]);
    reflexivity.
Defined.

End ScoringBounds.

(** ** More on the link probe *)

Module ProbeBounds.

Import Auditor.

Section Probe.

Variable W : world.
Variable A : auditor.





End Probe.






End ProbeBounds.

(** ** On-page analyzers *)

Module OnPageFacts.

Import Auditor.

Lemma take_length (n : nat) (t : string) : String.length (PyStr.take n t) <= n.
Proof.
  unfold PyStr.take. revert t. induction n as [|n IH]; intros [|c t]; cbn; try lia.
  specialize (IH t). lia.
Qed.

(** X7.  The heading analyzer counts the [h1] elements of the whole
    tree, reports the status good exactly when there is one [h1] and at
    least one [h2], and stores no heading text longer than 100
    characters. *)
Theorem heading_structure_counts (s : soup) :
  let d := _analyze_heading_structure s in
  let h1 := Soup.count (Soup.name_is "h1") s in
  let h2 := Soup.count (Soup.name_is "h2") s in
  Dict.get "h1_count" d = Some (vnat h1)
  /\ (Dict.get "status" d = Some (VStr "good") <-> h1 = 1 /\ 1 <= h2)
  /\ (Dict.get "proper_hierarchy" d = Some (VBool true) <-> h1 = 1 /\ 1 <= h2)
  /\ forall level, Forall (fun t => String.length t <= 100) (heading_texts level s).
Proof.
  cbn zeta. unfold _analyze_heading_structure.
  cbn [Dict.get String.eqb Ascii.eqb Bool.eqb].
  assert (Hlen : forall level,
             length (heading_texts level s) = Soup.count (Soup.name_is level) s).
  { intros level. unfold heading_texts.
    now rewrite length_map, SoupFacts.find_all_length. }
  rewrite !Hlen.
  set (h1 := Soup.count (Soup.name_is "h1") s).
  set (h2 := Soup.count (Soup.name_is "h2") s).
  split; [reflexivity|].
  assert (Hjoint : (h1 =? 1)%nat && (0 <? h2)%nat = true <-> h1 = 1 /\ 1 <= h2).
  { rewrite andb_true_iff, Nat.eqb_eq, Nat.ltb_lt. lia. }
  split; [|split].
  - rewrite <- Hjoint. destruct ((h1 =? 1)%nat && (0 <? h2)%nat); split;
      congruence || discriminate || reflexivity.
  - rewrite <- Hjoint. destruct ((h1 =? 1)%nat && (0 <? h2)%nat); split;
      congruence || discriminate || reflexivity.
  - intros level. unfold heading_texts. apply List.Forall_forall.
    intros t Hin. apply List.in_map_iff in Hin. destruct Hin as (tag & <- & _).
    apply take_length.
Qed.

Lemma fl_ext (p q : Q) : (p == q)%Q -> PyFloat.fl p = PyFloat.fl q.
Proof. intros Hpq. unfold PyFloat.fl. now rewrite (Qred_complete _ _ Hpq). Qed.

(** X8.  On a page without images the image analyzer divides nothing:
    the alt-text percentage is the number 0, no image is sampled, the
    status is needs_improvement and the advice is to add alt text to 0
    images. *)
Theorem no_images_needs_improvement (s : soup) :
  Soup.count (Soup.name_is "img") s = 0 ->
  let d := _analyze_images s in
  Dict.get "total_images" d = Some (VInt 0)
  /\ (exists v q, Dict.get "alt_percentage" d = Some v
                  /\ Demo.as_number v = Some q /\ (q == 0)%Q)
  /\ Dict.get "sample_analysis" d = Some (VList [])
  /\ Dict.get "status" d = Some (VStr "needs_improvement")
  /\ Dict.get "recommendation" d = Some (VStr "Add alt text to 0 images").
Proof.
  intros Hnone. rewrite <- SoupFacts.find_all_length in Hnone.
  apply length_zero_iff_nil in Hnone.
  cbn zeta. unfold _analyze_images. rewrite Hnone.
  split; [reflexivity|]. split; [|repeat split; reflexivity].
  eexists. eexists. split; [reflexivity|]. split; reflexivity.
Qed.

Lemma media_page_has_no_images :
  Dict.get "status" (_analyze_images Examples.media_page)
  = Some (VStr "needs_improvement").
Proof. apply (no_images_needs_improvement Examples.media_page). reflexivity. Defined.

Lemma filter_all {X : Type} (f : X -> bool) (l : list X) :
  forallb f l = true -> List.filter f l = l.
Proof.
  induction l as [|x l IH]; [reflexivity|].
  cbn. destruct (f x); [|discriminate]. intros H. now rewrite IH.
Qed.

(** X9.  When the page has at least one image and every image has a
    non-empty [alt], the percentage is 100.0 and the status is good;
    the images with alt never outnumber the images, and at most 10 are
    sampled. *)
Theorem full_alt_coverage_is_good (s : soup) :
  let images := Soup.find_all (Soup.name_is "img") s in
  let d := _analyze_images s in
  (exists sample, Dict.get "sample_analysis" d = Some (VList sample)
                  /\ length sample = Nat.min 10 (length images))
  /\ length (List.filter has_alt images) <= length images
  /\ (images <> [] -> forallb has_alt images = true ->
      Dict.get "alt_percentage" d = Some (VFloat (1000 # 10))
      /\ Dict.get "status" d = Some (VStr "good")
      /\ Dict.get "recommendation" d = Some (VStr "Good image optimization")).
Proof.
  cbn zeta. unfold _analyze_images.
  set (images := Soup.find_all (Soup.name_is "img") s).
  cbn [Dict.get String.eqb Ascii.eqb Bool.eqb].
  split; [|split].
  - eexists. split; [reflexivity|]. now rewrite length_map, length_firstn.
  - apply List.filter_length_le.
  - intros Hsome Hall. rewrite (filter_all _ _ Hall).
    destruct images as [|img rest]; [now elim Hsome|].
    replace (0 <? length (img :: rest))%nat with true by reflexivity.
    assert (Hone : (inject_Z (Z.of_nat (length (img :: rest)))
                    / inject_Z (Z.of_nat (length (img :: rest))) == 1)%Q).
    { apply Qmult_inv_r. change 0%Q with (inject_Z 0). rewrite inject_Z_injective.
      cbn [length]. lia. }
    rewrite (fl_ext _ _ Hone). repeat split; reflexivity.
Qed.

Lemma logo_page_is_good :
  Dict.get "alt_percentage" (_analyze_images MoreExamples.logo_page)
  = Some (VFloat (1000 # 10))
  /\ Dict.get "status" (_analyze_images MoreExamples.logo_page) = Some (VStr "good")
  /\ Dict.get "recommendation" (_analyze_images MoreExamples.logo_page)
     = Some (VStr "Good image optimization").
Proof.
  apply (proj2 (proj2 (full_alt_coverage_is_good MoreExamples.logo_page)));
    [discriminate | reflexivity].
Defined.

(** Pruning a pruned node changes nothing. *)
Lemma prune_prune (names : list string) (n : node) :
  flat_map (Soup.prune names) (Soup.prune names n) = Soup.prune names n.
Proof.
  induction n as [t|nm ats cs IH] using SoupFacts.node_forall_ind; [reflexivity|].
  cbn [Soup.prune]. destruct (existsb (String.eqb nm) names) eqn:Hnm; [reflexivity|].
  cbn [flat_map Soup.prune]. rewrite Hnm, app_nil_r. do 2 f_equal.
  induction IH as [|c cs Hc _ IHcs]; [reflexivity|].
  cbn [flat_map]. rewrite flat_map_app, Hc, IHcs. reflexivity.
Qed.

Lemma decompose_all_idempotent (names : list string) (s : soup) :
  Soup.decompose_all names (Soup.decompose_all names s) = Soup.decompose_all names s.
Proof.
  unfold Soup.decompose_all. induction s as [|n s IH]; [reflexivity|].
  cbn [flat_map]. rewrite flat_map_app, prune_prune, IH. reflexivity.
Qed.

(** No tag with one of the names is left in a pruned node. *)
Lemma prune_leaves_none (names : list string) (n : node) :
  List.filter (Soup.name_in names) (flat_map Soup.tags_of (Soup.prune names n)) = [].
Proof.
  induction n as [t|nm ats cs IH] using SoupFacts.node_forall_ind; [reflexivity|].
  cbn [Soup.prune]. destruct (existsb (String.eqb nm) names) eqn:Hnm; [reflexivity|].
  cbn [flat_map Soup.tags_of]. rewrite app_nil_r. cbn [List.filter].
  assert (Hname : Soup.name_in names (Tag nm ats (flat_map (Soup.prune names) cs)) = false).
  { unfold Soup.name_in, Soup.name_is. rewrite <- Hnm. reflexivity. }
  rewrite Hname. clear Hname.
  induction IH as [|c cs Hc _ IHcs]; [reflexivity|].
  cbn [flat_map]. rewrite flat_map_app, List.filter_app, Hc, IHcs. reflexivity.
Qed.

(** X10.  After the content analyzer has run, the shared tree holds no
    [script] and no [style] element, and running the analyzer again
    returns the same Finding and leaves the tree as it is. *)
Theorem content_analysis_settles (s : soup) :
  let first := _analyze_content s in
  Soup.find_all (Soup.name_in ["script"; "style"]) (snd first) = []
  /\ _analyze_content (snd first) = first.
Proof.
  cbn zeta. unfold _analyze_content. cbn [snd]. split.
  - unfold Soup.find_all, Soup.decompose_all.
    induction s as [|n s IH]; [reflexivity|].
    cbn [flat_map]. rewrite flat_map_app, List.filter_app, prune_leaves_none, IH.
    reflexivity.
  - now rewrite decompose_all_idempotent.
Qed.

(** X11.  The content analyzer removes every JSON-LD block from the
    shared tree: the structured-data analyzer, run after it, counts no
    JSON-LD script, whatever the page held. *)
Theorem content_analysis_removes_json_ld (W : world) (s : soup) :
  Dict.get "json_ld_scripts"
    (_analyze_structured_data W (snd (_analyze_content s)))
  = Some (VList []).
Proof.
  unfold _analyze_structured_data, _analyze_content. cbn [snd].
  cbn [Dict.get String.eqb Ascii.eqb Bool.eqb].
  assert (Hnone : Soup.find_all is_json_ld
                    (Soup.decompose_all ["script"; "style"] s) = []).
  { unfold Soup.find_all, Soup.decompose_all.
    induction s as [|n s IH]; [reflexivity|].
    cbn [flat_map]. rewrite flat_map_app, List.filter_app, IH, app_nil_r.
    pose proof (prune_leaves_none ["script"; "style"] n) as Hn.
    induction (flat_map Soup.tags_of (Soup.prune ["script"; "style"] n))
      as [|t ts IHts]; [reflexivity|].
    cbn [List.filter] in *.
    destruct (Soup.name_in ["script"; "style"] t) eqn:Ht; [discriminate|].
    assert (Hj : is_json_ld t = false).
    { unfold is_json_ld. unfold Soup.name_in in Ht. cbn [existsb] in Ht.
      destruct (Soup.name_is "script" t); [discriminate | reflexivity]. }
    rewrite Hj. now apply IHts. }
  now rewrite Hnone.
Qed.

End OnPageFacts.

(** ** Accessibility and performance *)

Module UxFacts.

Import Auditor.
Local Open Scope Q_scope.

Lemma round_half_even_ext (x y : Q) :
  x == y -> PyFloat.round_half_even x = PyFloat.round_half_even y.
Proof.
  intros Hxy. unfold PyFloat.round_half_even.
  rewrite (Qfloor_comp x y Hxy).
  assert (Hcmp : (x - inject_Z (Qfloor y) ?= 1 # 2) = (y - inject_Z (Qfloor y) ?= 1 # 2)).
  { apply Qcompare_comp; [now rewrite Hxy | reflexivity]. }
  now rewrite Hcmp.
Qed.

Lemma round1_ext (x y : Q) : x == y -> PyFloat.round1 x = PyFloat.round1 y.
Proof.
  intros Hxy. unfold PyFloat.round1.
  rewrite (round_half_even_ext (x * 10) (y * 10)); [reflexivity | now rewrite Hxy].
Qed.

(** Small integers are doubles. *)
Lemma fl_small_int (q : Q) (n : Z) :
  (0 <= n <= 40)%Z -> q == inject_Z n -> PyFloat.fl q == inject_Z n.
Proof.
  intros Hn Hq. rewrite (OnPageFacts.fl_ext q (inject_Z n) Hq).
  assert (Hall : forallb (fun k => Qeq_bool (PyFloat.fl (inject_Z (Z.of_nat k)))
                                      (inject_Z (Z.of_nat k)))
                   (seq 0 41) = true) by (vm_compute; reflexivity).
  rewrite forallb_forall in Hall. specialize (Hall (Z.to_nat n)).
  rewrite Z2Nat.id in Hall by lia.
  apply Qeq_bool_iff, Hall, in_seq. lia.
Qed.

Lemma round1_small_int (n : Z) :
  (0 <= n <= 40)%Z -> PyFloat.round1 (inject_Z n) == inject_Z n.
Proof.
  intros Hn.
  assert (Hall : forallb (fun k => Qeq_bool (PyFloat.round1 (inject_Z (Z.of_nat k)))
                                      (inject_Z (Z.of_nat k)))
                   (seq 0 41) = true) by (vm_compute; reflexivity).
  rewrite forallb_forall in Hall. specialize (Hall (Z.to_nat n)).
  rewrite Z2Nat.id in Hall by lia.
  apply Qeq_bool_iff, Hall, in_seq. lia.
Qed.

(** X12.  On a page without images and without form inputs the
    accessibility score is the sum of the points for [aria-label]
    attributes (5 each, at most 20), for the presence of an [h1] (10) and
    for skip links (5 each, at most 10): at most 40, so the status is
    needs_improvement whatever else the page holds. *)
Theorem accessibility_without_images_and_inputs (s : soup) :
  Soup.count (Soup.name_is "img") s = 0%nat ->
  Soup.count (Soup.name_in ["input"; "textarea"; "select"]) s = 0%nat ->
  let d := _analyze_accessibility s in
  let points :=
    Views.fixed_accessibility_points
      (Soup.count (Soup.has_attr "aria-label") s)
      (Soup.count is_skip_link s)
      (match Soup.find (Soup.name_is "h1") s with Some _ => true | None => false end) in
  (points <= 40)%Z
  /\ (exists v q, Dict.get "accessibility_score" d = Some v
                  /\ Demo.as_number v = Some q /\ q == inject_Z points)
  /\ Dict.get "status" d = Some (VStr "needs_improvement")
  /\ Dict.get "recommendation" d = Some (VStr "Improve accessibility features").
Proof.
  intros Himg Hinp. cbn zeta.
  rewrite <- SoupFacts.find_all_length in Himg, Hinp.
  apply length_zero_iff_nil in Himg. apply length_zero_iff_nil in Hinp.
  unfold _analyze_accessibility. rewrite Himg, Hinp.
  rewrite !SoupFacts.find_all_length.
  cbn [List.filter length Nat.ltb Nat.leb].
  set (aria := Z.of_nat (Nat.min (Soup.count (Soup.has_attr "aria-label") s * 5) 20)).
  set (skip := Z.of_nat (Nat.min (Soup.count is_skip_link s * 5) 10)).
  set (h1 := match Soup.find (Soup.name_is "h1") s with
             | Some _ => true
             | None => false
             end).
  assert (Haria : (0 <= aria <= 20)%Z) by (subst aria; lia).
  assert (Hskip : (0 <= skip <= 10)%Z) by (subst skip; lia).
  set (hz := (if h1 then 10 else 0)%Z).
  assert (Hhz : (0 <= hz <= 10)%Z) by (subst hz; destruct h1; lia).
  assert (Hpoints : Views.fixed_accessibility_points
                      (Soup.count (Soup.has_attr "aria-label") s)
                      (Soup.count is_skip_link s) h1 = (aria + hz + skip)%Z)
    by reflexivity.
  rewrite Hpoints.
  set (score3 := PyFloat.fl (0 + inject_Z aria)).
  assert (H3 : score3 == inject_Z aria).
  { apply fl_small_int; [lia | ring]. }
  set (score4 := PyFloat.fl (score3 + (if h1 then 10 else 0))).
  assert (H4 : score4 == inject_Z (aria + hz)).
  { apply fl_small_int; [lia|]. rewrite H3, inject_Z_plus.
    subst hz. destruct h1; reflexivity. }
  set (score := PyFloat.fl (score4 + inject_Z skip)).
  assert (H5 : score == inject_Z (aria + hz + skip)).
  { apply fl_small_int; [lia|]. rewrite H4, <- inject_Z_plus. reflexivity. }
  cbn [Dict.get String.eqb Ascii.eqb Bool.eqb].
  split; [lia|]. split; [|split].
  - eexists. eexists. split; [reflexivity|]. split; [reflexivity|].
    rewrite (round1_ext score _ H5). apply round1_small_int. lia.
  - assert (Hlow : Qle_bool 70 score = false).
    { destruct (Qle_bool 70 score) eqn:E; [|reflexivity].
      apply Qle_bool_iff in E. rewrite H5 in E.
      change 70 with (inject_Z 70) in E. rewrite <- Zle_Qle in E. lia. }
    now rewrite Hlow.
  - assert (Hlt : Qltb score 70 = true).
    { unfold Qltb. apply negb_true_iff.
      destruct (Qle_bool 70 score) eqn:E; [|reflexivity].
      apply Qle_bool_iff in E. rewrite H5 in E.
      change 70 with (inject_Z 70) in E. rewrite <- Zle_Qle in E. lia. }
    now rewrite Hlt.
Qed.

Lemma media_page_accessibility :
  Dict.get "status" (_analyze_accessibility Examples.media_page)
  = Some (VStr "needs_improvement").
Proof.
  apply (accessibility_without_images_and_inputs Examples.media_page); reflexivity.
Defined.

(** X13.  The performance score is a whole number between 0 and 100, the
    status is good exactly from 70 on, and a response with neither gzip
    compression nor a [Cache-Control] header cannot be good: the four
    other features add up to 60. *)
Theorem performance_score_bounds (A : auditor) (s : soup) :
  let d := _check_performance_enhancements A s in
  exists score,
    Dict.get "performance_score" d = Some (VInt score)
    /\ (0 <= score <= 100)%Z
    /\ (Dict.get "status" d = Some (VStr "good") <-> (70 <= score)%Z)
    /\ (Dict.get "status" d = Some (VStr "good") ->
        Dict.get "gzip_compression" d = Some (VBool true)
        \/ Dict.get "cache_control" d = Some (VBool true)).
Proof.
  cbn zeta. unfold _check_performance_enhancements.
  cbn [Dict.get String.eqb Ascii.eqb Bool.eqb].
  eexists. split; [reflexivity|].
  destruct (PyStr.contains "gzip" _), (header_present A "Cache-Control"),
    (header_present A "ETag"), (header_present A "Last-Modified"),
    (0 <? length _)%nat, (existsb _ cdn_indicators);
    cbn; (split; [lia|]); (split; [split; (lia || discriminate || reflexivity)|]);
    intros Hgood; (discriminate Hgood || tauto).
Qed.

(** Header names are matched whatever their case: the response of
    [MoreExamples.tuned_auditor] spells them in lower case and scores
    20 + 20 + 15 + 15. *)
Lemma tuned_response_is_good :
  Dict.get "performance_score"
    (_check_performance_enhancements MoreExamples.tuned_auditor [])
  = Some (VInt 70)
  /\ Dict.get "status" (_check_performance_enhancements MoreExamples.tuned_auditor [])
     = Some (VStr "good").
Proof. split; reflexivity. Qed.

End UxFacts.

(** ** The pipeline as a whole *)

Module PipelineFacts.

Import Auditor.







Lemma normalized_has_scheme (u : string) :
  PyStr.startswith_any ["http://"; "https://"] (normalize_url u) = true.
Proof.
  unfold normalize_url.
  destruct (PyStr.startswith_any ["http://"; "https://"] u) eqn:Hu; [exact Hu|].
  clear Hu. destruct u; reflexivity.
Qed.

(** X15.  [audit_website] adds [https://] to a url without scheme and
    leaves a url that starts with [http://] or [https://] alone; so the
    url recorded always has a scheme, and auditing a url or its
    normalised form gives the same report. *)
Theorem audit_website_normalizes (W : world) (api_key : option string) (u : string) :
  PyStr.startswith_any ["http://"; "https://"] (url (audit_website W api_key u)) = true
  /\ normalize_url (normalize_url u) = normalize_url u
  /\ audit_website W api_key (normalize_url u) = audit_website W api_key u.
Proof.
  assert (Hidem : normalize_url (normalize_url u) = normalize_url u).
  { unfold normalize_url at 1. now rewrite normalized_has_scheme. }
  split; [|split; [exact Hidem|]].
  - unfold audit_website.
    destruct (session_get W (normalize_url u)); [|apply normalized_has_scheme].
    unfold run_modules.
    destruct (_audit_technical_seo _ _ _) as [t s1].
    destruct (_audit_on_page_seo s1) as [o s2].
    destruct (_audit_off_page_seo _ _ s2) as [f s3].
    destruct (_audit_user_experience s3) as [x s4].
    destruct (_audit_security_performance _ s4) as [y s5].
    apply normalized_has_scheme.
  - unfold audit_website. now rewrite Hidem.
Qed.

Lemma run_checks_keep_tree (cs : list check) (cat : dict) (s : soup) :
  (forall c s', In c cs -> snd (check_body c s') = s') ->
  snd (run_checks cs cat s) = s.
Proof.
  revert cat s. induction cs as [|c cs IH]; intros cat s Hkeep; [reflexivity|].
  cbn [run_checks].
  pose proof (Hkeep c s (or_introl eq_refl)) as Hc.
  destruct (check_body c s) as [[v|e] s']; cbn [snd] in Hc; subst s';
    apply IH; intros c' t Hin; apply Hkeep; now right.
Qed.

(** X16.  Four of the five audit modules hand on the document tree as
    they received it; the on-page module hands on the tree without its
    [script] and [style] elements, which is what the later modules (user
    experience, security and performance) work on. *)
Theorem modules_and_the_tree (W : world) (A : auditor) (s : soup) :
  snd (_audit_technical_seo W A s) = s
  /\ snd (_audit_on_page_seo s) = Soup.decompose_all ["script"; "style"] s
  /\ snd (_audit_off_page_seo W A s) = s
  /\ snd (_audit_user_experience s) = s
  /\ snd (_audit_security_performance A s) = s.
Proof.
  assert (Hkeep : forall module,
             In module (audit_modules W A) ->
             (forall c, In c module -> check_key c <> "content_analysis") ->
             forall t, snd (run_checks module [] t) = t).
  { intros module Hmod Hkeys t. apply run_checks_keep_tree.
    intros c t' Hin.
    apply (SoupFacts.other_checks_keep_tree W A module c t' Hmod Hin (Hkeys c Hin)). }
  assert (Hother : forall keys module,
             map check_key module = keys -> ~ In "content_analysis" keys ->
             forall c, In c module -> check_key c <> "content_analysis").
  { intros keys module <- Hnot c Hin Heq. apply Hnot. rewrite <- Heq.
    now apply in_map. }
  split; [|split; [|split; [|split]]].
  - apply Hkeep; [cbn; tauto|].
    eapply Hother; [reflexivity | cbn; intuition discriminate].
  - unfold _audit_on_page_seo.
    change on_page_checks
      with (firstn 5 on_page_checks ++ [guarded "content_analysis" (as_value _analyze_content)]).
    rewrite AuditorFacts.run_checks_app.
    rewrite (run_checks_keep_tree (firstn 5 on_page_checks) [] s).
    + reflexivity.
    + intros c t Hin.
      apply (SoupFacts.other_checks_keep_tree W A (on_page_checks) c t).
      * cbn. tauto.
      * cbn in Hin. cbn. tauto.
      * cbn in Hin. intuition (subst; discriminate).
  - apply Hkeep; [cbn; tauto|].
    eapply Hother; [reflexivity | cbn; intuition discriminate].
  - apply (Hkeep (user_experience_checks)); [cbn; tauto|].
    eapply Hother; [reflexivity | cbn; intuition discriminate].
  - apply (Hkeep (security_performance_checks A)); [cbn; tauto|].
    eapply Hother; [reflexivity | cbn; intuition discriminate].
Qed.

End PipelineFacts.

(** ** More on the job manager *)

Module WebMore.

Import Web.

(** X17.  A submission is either accepted, with code 200, the status
    running and exactly one thread started for the stripped, non-empty
    url under the identifier returned, or refused with code 400 or 500
    and an error message, the server being left as it was. *)
Theorem submission_accepted_or_refused (hash : string -> Z) (now : datetime)
  (data : result value) (srv : server) :
  let reply := fst (start_audit hash now data srv) in
  let srv' := snd (start_audit hash now data srv) in
  (exists u key,
     u <> ""
     /\ reply = Json 200 [ ("audit_id", VStr (make_audit_id hash now u));
                           ("message", VStr "Audit started successfully");
                           ("status", VStr "running") ]
     /\ srv' = mk_server (audit_results_cache srv)
                 (threads srv ++ [mk_job (make_audit_id hash now u) u key]))
  \/ (exists message,
        (reply = Json 400 [("error", VStr message)]
         \/ reply = Json 500 [("error", VStr message)])
        /\ srv' = srv).
Proof.
  cbn zeta. unfold start_audit.
  destruct data as [d|e]; [|right; eexists; split; [right|]; reflexivity].
  destruct (get_stripped "url" d) as [u|e];
    [|right; eexists; split; [right|]; reflexivity].
  destruct (get_stripped "api_key" d) as [k|e];
    [|right; eexists; split; [right|]; reflexivity].
  destruct u as [|c u]; cbn [PyStr.is_empty fst snd].
  - right. eexists. split; [left|]; reflexivity.
  - left. exists (String c u), (if PyStr.is_empty k then None else Some k).
    split; [discriminate|]. split; reflexivity.
Qed.

(** X18.  A submission whose url is missing, empty or made of blanks
    only is answered 400 "URL is required" and starts nothing (the key,
    if given, being a string). *)
Theorem blank_url_is_refused (hash : string -> Z) (now : datetime) (d : dict)
  (srv : server) :
  (Dict.get "url" d = None
   \/ exists u, Dict.get "url" d = Some (VStr u) /\ PyStr.strip u = "") ->
  (Dict.get "api_key" d = None \/ exists k, Dict.get "api_key" d = Some (VStr k)) ->
  start_audit hash now (Ok (VDict d)) srv
  = (Json 400 [("error", VStr "URL is required")], srv).
Proof.
  intros Hurl Hkey. unfold start_audit, get_stripped, Auditor.dict_get_default.
  assert (Hu : match Dict.get "url" d with
               | Some v => v
               | None => VStr ""
               end = VStr "" \/
               exists u, match Dict.get "url" d with
                         | Some v => v
                         | None => VStr ""
                         end = VStr u /\ PyStr.strip u = "").
  { destruct Hurl as [->|(u & -> & Hu)]; [right; exists ""; split; reflexivity|].
    right. exists u. split; [reflexivity | exact Hu]. }
  destruct Hu as [Hu|(u & Hu & Hstrip)]; rewrite Hu; [|rewrite Hstrip];
    (destruct Hkey as [->|(k & ->)]; reflexivity).
Qed.

Lemma blank_submission_is_refused :
  start_audit (fun _ => 0%Z) Examples.first_click MoreExamples.blank_submission
    initial_server
  = (Json 400 [("error", VStr "URL is required")], initial_server).
Proof.
  apply (blank_url_is_refused (fun _ => 0%Z) Examples.first_click
           [("url", VStr "   ")] initial_server).
  - right. exists "   ". split; reflexivity.
  - left. reflexivity.
Defined.

(** X19.  A submission with a good url whose [api_key] is present but
    is not a string (JSON [null], a number, ...) is answered 500 with the
    attribute error of [strip], and no audit is started. *)
Theorem non_string_key_is_an_error (hash : string -> Z) (now : datetime) (d : dict)
  (u : string) (key : value) (srv : server) :
  Dict.get "url" d = Some (VStr u) ->
  Dict.get "api_key" d = Some key ->
  (forall k, key <> VStr k) ->
  start_audit hash now (Ok (VDict d)) srv
  = (Json 500 [("error", VStr (no_attribute key "strip"))], srv).
Proof.
  intros Hurl Hkey Hnot. unfold start_audit, get_stripped, Auditor.dict_get_default.
  rewrite Hurl, Hkey.
  destruct key; try reflexivity. now elim (Hnot s).
Qed.

Lemma null_key_is_an_error :
  start_audit (fun _ => 0%Z) Examples.first_click MoreExamples.null_key_submission
    initial_server
  = (Json 500 [("error", VStr "'NoneType' object has no attribute 'strip'")],
     initial_server).
Proof.
  apply (non_string_key_is_an_error (fun _ => 0%Z) Examples.first_click
           [("url", VStr "example.com"); ("api_key", VNone)] "example.com" VNone
           initial_server); [reflexivity | reflexivity | discriminate].
Defined.



Lemma step_keeps_cached (hash : string -> Z) (render : audit_results -> string)
  (srv : server) (ev : event) (id : string) :
  is_Some (audit_results_cache srv !! id) ->
  is_Some (audit_results_cache (step hash render srv ev) !! id).
Proof.
  intros Hsome. destruct ev as [now data|W i]; cbn [step].
  - now rewrite WebFacts.start_audit_keeps_cache.
  - destruct (threads srv !! i) as [j|]; [|exact Hsome].
    cbn [audit_results_cache run_audit].
    destruct (String.string_dec (job_id j) id) as [->|Hne].
    + rewrite lookup_insert_eq. eauto.
    + now rewrite lookup_insert_ne.
Qed.

(** X22.  Nothing removes a report from the cache: once the status of an
    identifier is completed, it stays completed through any further
    submissions and thread ends. *)
Theorem completed_stays_completed (hash : string -> Z)
  (render : audit_results -> string) (events : list event) (srv : server)
  (id : string) :
  reply_field "status" (audit_status srv id) = Some (VStr "completed") ->
  reply_field "status"
    (audit_status (fold_left (step hash render) events srv) id)
  = Some (VStr "completed").
Proof.
  intros Hdone.
  assert (Hsome : is_Some (audit_results_cache srv !! id)).
  { unfold audit_status in Hdone.
    destruct (audit_results_cache srv !! id); [eauto | discriminate]. }
  clear Hdone. revert srv Hsome.
  induction events as [|ev events IH]; intros srv Hsome.
  - cbn [fold_left]. unfold audit_status. destruct Hsome as [c ->]. reflexivity.
  - cbn [fold_left]. apply IH. now apply step_keeps_cached.
Qed.

Lemma completed_survives_a_submission :
  reply_field "status"
    (audit_status
       (fold_left (step (fun _ => 0%Z) (fun _ => ""))
          [Submit Examples.second_click Examples.submission]
          (run_audit (fun _ => "") Examples.offline_world
             (mk_job "audit_1" "example.com" None) initial_server))
       "audit_1")
  = Some (VStr "completed").
Proof.
  apply (completed_stays_completed (fun _ => 0%Z) (fun _ => "")
           [Submit Examples.second_click Examples.submission]).
  reflexivity.
Defined.

(** X23.  In every run of the job manager, each cached report is filed
    under the identifier it carries in its [audit_id] field. *)
Theorem cached_reports_carry_their_key (hash : string -> Z)
  (render : audit_results -> string) (events : list event) (id : string)
  (c : cached) :
  audit_results_cache (fold_left (step hash render) events initial_server) !! id
  = Some c ->
  audit_id c = id.
Proof.
  assert (Hinv : forall srv,
             (forall k v, audit_results_cache srv !! k = Some v -> audit_id v = k) ->
             forall k v,
               audit_results_cache (fold_left (step hash render) events srv) !! k = Some v ->
               audit_id v = k).
  { induction events as [|ev events IH]; intros srv Hsrv; [exact Hsrv|].
    cbn [fold_left]. apply IH. intros k v.
    destruct ev as [now data|W i]; cbn [step].
    - rewrite WebFacts.start_audit_keeps_cache. apply Hsrv.
    - destruct (threads srv !! i) as [j|]; [|apply Hsrv].
      cbn [audit_results_cache run_audit].
      destruct (String.string_dec (job_id j) k) as [->|Hne].
      + rewrite lookup_insert_eq. intros [= <-]. reflexivity.
      + rewrite lookup_insert_ne by assumption. apply Hsrv. }
  apply Hinv. intros k v. cbn. rewrite lookup_empty. discriminate.
Qed.

Lemma offline_job_is_filed_under_its_id :
  audit_id
    (mk_cached (Auditor.audit_website Examples.offline_world None "example.com")
       (make_audit_id (fun _ => 0%Z) Examples.first_click "example.com") "")
  = make_audit_id (fun _ => 0%Z) Examples.first_click "example.com".
Proof.
  apply (cached_reports_carry_their_key (fun _ => 0%Z) (fun _ => "")
           [Submit Examples.first_click Examples.submission;
            Finish Examples.offline_world 0]).
  vm_compute. reflexivity.
Defined.

End WebMore.

(** ** The recommendations of the demonstration script *)

Module DemoFacts.

Import Demo.

(** X24.  For the report of an audit whose fetch failed, the
    demonstration script lists all nine issues, in their fixed order:
    every finding it looks for is missing. *)
Theorem failed_fetch_recommends_everything (W : world) (api_key : option string)
  (url0 e : string) :
  session_get W (Auditor.normalize_url url0) = Raise e ->
  generate_recommendations (Auditor.audit_website W api_key url0) = Ok issue_messages.
Proof.
  intros Hfetch. unfold Auditor.audit_website. rewrite Hfetch. reflexivity.
Qed.

Lemma offline_recommendations :
  generate_recommendations
    (Auditor.audit_website Examples.offline_world None "example.com")
  = Ok issue_messages.
Proof.
  apply (failed_fetch_recommends_everything Examples.offline_world None
           "example.com" "Connection timed out").
  reflexivity.
Defined.

Lemma incl_when (b : bool) (m : string) (l : list string) :
  In m l -> incl (when b m) l.
Proof. intros Hin x Hx. destruct b; [destruct Hx as [<-|[]]; exact Hin | destruct Hx]. Qed.

(** X25.  [generate_recommendations] never returns an empty list: its
    result is either the five default lines or a non-empty selection of
    the nine issues. *)
Theorem recommendations_are_never_empty (r : audit_results) (l : list string) :
  generate_recommendations r = Ok l ->
  l <> [] /\ (l = default_recommendations \/ incl l issue_messages).
Proof.
  unfold generate_recommendations, and_then.
  repeat match goal with
         | |- context [match ?x with Ok _ => _ | Raise _ => _ end] =>
             destruct x; [|discriminate]
         end.
  match goal with
  | |- Ok (match ?recs with [] => _ | _ => _ end) = Ok l -> _ =>
      assert (Hincl : incl recs issue_messages);
      [|destruct recs; intros [= <-]; (split; [discriminate|]); [now left | now right]]
  end.
  repeat (apply incl_app; [apply incl_when; cbn; tauto|]).
  apply incl_when; cbn; tauto.
Qed.

Lemma offline_recommendations_not_empty :
  issue_messages <> []
  /\ (issue_messages = default_recommendations \/ incl issue_messages issue_messages).
Proof.
  apply (recommendations_are_never_empty
           (Auditor.audit_website Examples.offline_world None "example.com")).
  reflexivity.
Defined.

Lemma set_readable (k : string) (v : value) (cat : dict) :
  Views.readable k v = true -> Views.all_readable cat = true ->
  Views.all_readable (Dict.set k v cat) = true.
Proof.
  intros Hv. induction cat as [|[k' v'] cat IH]; cbn; intros Hcat.
  - now rewrite Hv.
  - apply andb_true_iff in Hcat as [Hhead Htail].
    destruct (String.eqb k k'); cbn.
    + now rewrite Hv.
    + rewrite Hhead. now apply IH.
Qed.

Lemma run_checks_readable (cs : list Auditor.check) :
  (forall c, In c cs -> forall s,
     Views.readable (Auditor.check_key c)
       match fst (Auditor.check_body c s) with
       | Ok v => v
       | Raise e => Auditor.check_handler c e
       end = true) ->
  forall cat s, Views.all_readable cat = true ->
    Views.all_readable (fst (Auditor.run_checks cs cat s)) = true.
Proof.
  induction cs as [|c cs IH]; intros Hcs cat s Hcat; [exact Hcat|].
  cbn [Auditor.run_checks].
  pose proof (Hcs c (or_introl eq_refl) s) as Hc.
  destruct (Auditor.check_body c s) as [[v|e] s']; cbn [fst] in Hc;
    (apply IH; [intros c' Hin; apply Hcs; now right | now apply set_readable]).
Qed.

(** Whatever a check of the five modules stores, its body's result or
    its handler's, [generate_recommendations] can read it. *)
Lemma modules_store_readable_findings (W : world) (A : auditor)
  (module : list Auditor.check) (c : Auditor.check) (s : soup) :
  In module (Auditor.audit_modules W A) -> In c module ->
  Views.readable (Auditor.check_key c)
    match fst (Auditor.check_body c s) with
    | Ok v => v
    | Raise e => Auditor.check_handler c e
    end = true.
Proof.
  intros Hmod Hc. cbn in Hmod.
  destruct Hmod as [<-|[<-|[<-|[<-|[<-|[]]]]]]; cbn in Hc;
    repeat (destruct Hc as [<-|Hc]; [|]); try contradiction;
    cbn [Auditor.check_key Auditor.check_body Auditor.check_handler Auditor.guarded];
    try reflexivity.
  - unfold Auditor.xml_sitemap, bind, lift.
    destruct (session_get W _); reflexivity.
  - unfold Auditor.robots_txt, bind, lift.
    destruct (session_get W _); reflexivity.
Qed.

Lemma get_readable (key : string) (cat : dict) (v : value) :
  Views.all_readable cat = true -> Dict.get key cat = Some v ->
  Views.readable key v = true.
Proof.
  induction cat as [|[k' v'] cat IH]; cbn; [discriminate|].
  intros Hcat. apply andb_true_iff in Hcat as [Hhead Htail].
  destruct (String.eqb_spec key k') as [->|Hne]; [|now apply IH].
  now intros [= <-].
Qed.

Lemma lookup_readable (cat : dict) (key field : string) (default : value) :
  Views.all_readable cat = true ->
  exists x, lookup cat key field default = Ok x
            /\ (In (key, field) Views.compared_fields ->
                Views.is_number default = true -> Views.is_number x = true).
Proof.
  intros Hcat. unfold lookup.
  destruct (Dict.get key cat) as [v|] eqn:Hget; [|exists default; tauto].
  pose proof (get_readable key cat v Hcat Hget) as Hv.
  destruct v as [| | | | |l|d]; try discriminate Hv.
  exists (Auditor.dict_get_default field default d). split; [reflexivity|].
  intros Hin Hdefault. unfold Auditor.dict_get_default.
  cbn [Views.readable] in Hv.
  pose proof (proj1 (forallb_forall _ _) Hv (key, field) Hin) as Hfield.
  cbn [fst snd] in Hfield. rewrite String.eqb_refl in Hfield. cbn in Hfield.
  destruct (Dict.get field d); assumption.
Qed.

Lemma number_compares (v : value) (bound : Z) :
  Views.is_number v = true ->
  (exists b, int_le_value bound v = Ok b)
  /\ (exists b, value_le_int v bound = Ok b)
  /\ (exists b, value_lt_int v bound = Ok b).
Proof.
  unfold Views.is_number, int_le_value, value_le_int, value_lt_int.
  destruct (as_number v); [|discriminate]. intros _.
  split; [|split]; eexists; reflexivity.
Qed.

Lemma readable_report_is_read (r : audit_results) :
  Views.all_readable (technical_seo r) = true ->
  Views.all_readable (on_page_seo r) = true ->
  Views.all_readable (security_performance r) = true ->
  exists l, generate_recommendations r = Ok l.
Proof.
  intros Htech Hpage Hsec. unfold generate_recommendations.
  destruct (lookup_readable _ "https_ssl" "status" VNone Htech) as (x1 & -> & _).
  destruct (lookup_readable _ "mobile_friendly" "has_viewport_meta" VNone Htech)
    as (x2 & -> & _).
  destruct (lookup_readable _ "xml_sitemap" "exists" VNone Htech) as (x3 & -> & _).
  destruct (lookup_readable _ "structured_data" "total_schemas" (VInt 0) Htech)
    as (x4 & -> & _).
  destruct (lookup_readable _ "meta_description" "exists" VNone Hpage) as (x5 & -> & _).
  destruct (lookup_readable _ "title_tags" "length" (VInt 0) Hpage) as (x6 & -> & H6).
  destruct (lookup_readable _ "image_optimization" "alt_percentage" (VInt 0) Hpage)
    as (x7 & -> & H7).
  destruct (lookup_readable _ "security_headers" "security_score" (VInt 0) Hsec)
    as (x8 & -> & H8).
  destruct (lookup_readable _ "performance_enhancements" "performance_score" (VInt 0) Hsec)
    as (x9 & -> & H9).
  cbn [and_then].
  assert (N6 : Views.is_number x6 = true) by (apply H6; [cbn; tauto | reflexivity]).
  assert (N7 : Views.is_number x7 = true) by (apply H7; [cbn; tauto | reflexivity]).
  assert (N8 : Views.is_number x8 = true) by (apply H8; [cbn; tauto | reflexivity]).
  assert (N9 : Views.is_number x9 = true) by (apply H9; [cbn; tauto | reflexivity]).
  unfold in_title_range.
  destruct (number_compares x6 30 N6) as ((b6 & ->) & _ & _). cbn [and_then].
  assert (exists b, (if b6 then value_le_int x6 60 else Ok false) = Ok b) as (b6' & ->).
  { destruct b6; [|eauto]. now destruct (number_compares x6 60 N6) as (_ & ? & _). }
  destruct (number_compares x7 90 N7) as (_ & _ & (b7 & ->)).
  destruct (number_compares x8 70 N8) as (_ & _ & (b8 & ->)).
  destruct (number_compares x9 70 N9) as (_ & _ & (b9 & ->)).
  cbn [and_then]. eauto.
Qed.

Lemma audit_report_is_readable (W : world) (api_key : option string) (url0 : string) :
  let r := Auditor.audit_website W api_key url0 in
  Views.all_readable (technical_seo r) = true
  /\ Views.all_readable (on_page_seo r) = true
  /\ Views.all_readable (security_performance r) = true.
Proof.
  cbn zeta. unfold Auditor.audit_website.
  destruct (session_get W (Auditor.normalize_url url0)) as [resp|e];
    [|repeat split; reflexivity].
  set (A := mk_auditor _ _ _ _). set (s0 := html_parser W (content resp)).
  unfold Auditor.run_modules, Auditor._audit_technical_seo, Auditor._audit_on_page_seo,
    Auditor._audit_off_page_seo, Auditor._audit_user_experience,
    Auditor._audit_security_performance.
  assert (Hmod : forall module s,
             In module (Auditor.audit_modules W A) ->
             Views.all_readable (fst (Auditor.run_checks module [] s)) = true).
  { intros module s Hin. apply run_checks_readable; [|reflexivity].
    intros c Hc s'. now apply modules_store_readable_findings with W A module. }
  pose proof (Hmod (Auditor.technical_checks W A) s0) as Htech.
  destruct (Auditor.run_checks (Auditor.technical_checks W A) [] s0) as [technical s1].
  pose proof (Hmod Auditor.on_page_checks s1) as Hpage.
  destruct (Auditor.run_checks Auditor.on_page_checks [] s1) as [on_page s2].
  destruct (Auditor.run_checks (Auditor.off_page_checks W A) [] s2) as [off_page s3].
  destruct (Auditor.run_checks Auditor.user_experience_checks [] s3) as [ux s4].
  pose proof (Hmod (Auditor.security_performance_checks A) s4) as Hsec.
  destruct (Auditor.run_checks (Auditor.security_performance_checks A) [] s4)
    as [security s5].
  cbn [technical_seo on_page_seo security_performance Scoring._calculate_scores fst] in *.
  split; [|split].
  - apply Htech. cbn. tauto.
  - apply Hpage. cbn. tauto.
  - apply Hsec. cbn. tauto.
Qed.

(** X26.  [generate_recommendations] never raises on a report returned
    by [audit_website], whatever the page, the answers of the network
    and the analyzers that failed: every finding it reads is a
    dictionary, and the fields it compares with a number are numbers or
    absent. *)
Theorem recommendations_read_every_audit (W : world) (api_key : option string)
  (url0 : string) :
  exists l, generate_recommendations (Auditor.audit_website W api_key url0) = Ok l.
Proof.
  destruct (audit_report_is_readable W api_key url0) as (Htech & Hpage & Hsec).
  now apply readable_report_is_read.
Qed.

(** The sitemap line is issued whenever the field [exists] of the
    sitemap finding is missing or false. *)
Lemma sitemap_test_is_reported (r : audit_results) (l : list string) (x : value) :
  generate_recommendations r = Ok l ->
  lookup (technical_seo r) "xml_sitemap" "exists" VNone = Ok x ->
  truthy x = false ->
  In "🟡 HIGH: Create and submit XML sitemap" l.
Proof.
  intros Hgen Hlook Hfalse. revert Hgen.
  unfold generate_recommendations. rewrite Hlook. unfold and_then.
  repeat match goal with
         | |- context [match ?y with Ok _ => _ | Raise _ => _ end] =>
             destruct y; [|discriminate]
         end.
  rewrite Hfalse. cbn [negb when]. intros [= <-].
  match goal with
  | |- context [when ?b1 _ ++ when ?b2 _ ++ _] => destruct b1, b2
  end; cbn; tauto.
Qed.

(** The entry a check leaves under its key, when no later check of the
    table has the same key. *)
Lemma run_checks_get_here (pre post : list Auditor.check) (c : Auditor.check)
  (cat : dict) (s : soup) :
  ~ In (Auditor.check_key c) (map Auditor.check_key post) ->
  Dict.get (Auditor.check_key c) (fst (Auditor.run_checks (pre ++ c :: post) cat s))
  = Some match fst (Auditor.check_body c (snd (Auditor.run_checks pre cat s))) with
         | Ok v => v
         | Raise e => Auditor.check_handler c e
         end.
Proof.
  intros Hfresh. rewrite AuditorFacts.run_checks_app. cbn [Auditor.run_checks].
  destruct (Auditor.check_body c (snd (Auditor.run_checks pre cat s))) as [[v|e] s'];
    cbn [fst]; rewrite AuditorFacts.run_checks_keeps by assumption;
    apply AuditorFacts.get_set_eq.
Qed.

Lemma sitemap_entry (W : world) (A : auditor) (s : soup) :
  Dict.get "xml_sitemap" (fst (Auditor.run_checks (Auditor.technical_checks W A) [] s))
  = Some match session_get W (urljoin W (self_url A) "/sitemap.xml") with
         | Ok r =>
             let has_sitemap := (status_code r =? 200)%Z in
             VDict
               [ ("sitemap_url", VStr (urljoin W (self_url A) "/sitemap.xml"));
                 ("exists", VBool has_sitemap);
                 ("status", VStr (if has_sitemap then "good" else "needs_improvement"));
                 ("recommendation", VStr (if negb has_sitemap
                                          then "Create and submit XML sitemap"
                                          else "XML sitemap found")) ]
         | Raise e => Auditor.error_finding e
         end.
Proof.
  etransitivity.
  { apply (run_checks_get_here
             [ Auditor.mk_check "response_time" (Auditor.response_time W)
                 (fun _ => Auditor.error_finding "Could not measure response time");
               Auditor.guarded "https_ssl" (Auditor.https_ssl W A);
               Auditor.guarded "mobile_friendly" Auditor.mobile_friendly;
               Auditor.guarded "indexability" Auditor.indexability ]
             [ Auditor.guarded "robots_txt" (Auditor.robots_txt W A);
               Auditor.guarded "canonical_tags" Auditor.canonical_tags;
               Auditor.guarded "structured_data" (Auditor.structured_data W);
               Auditor.guarded "broken_links" (Auditor.broken_links W A) ]
             (Auditor.guarded "xml_sitemap" (Auditor.xml_sitemap W A)) [] s).
    cbn. intuition discriminate. }
  cbn [Auditor.check_body Auditor.check_key Auditor.check_handler Auditor.guarded].
  unfold Auditor.xml_sitemap, bind, lift, ret.
  destruct (session_get W (urljoin W (self_url A) "/sitemap.xml")) as [r|e];
    reflexivity.
Qed.

(** X27.  When the page is fetched but the request for [/sitemap.xml]
    fails or is answered with a status other than 200, the
    recommendations for the audit's report include the sitemap line:
    a refused request ([{'error': ...}]) and a missing sitemap are
    reported alike. *)
Theorem missing_sitemap_is_recommended (W : world) (api_key : option string)
  (url0 : string) (resp : response) :
  session_get W (Auditor.normalize_url url0) = Ok resp ->
  (forall r, session_get W (urljoin W (Auditor.normalize_url url0) "/sitemap.xml") = Ok r ->
             status_code r <> 200%Z) ->
  exists l,
    generate_recommendations (Auditor.audit_website W api_key url0) = Ok l
    /\ In "🟡 HIGH: Create and submit XML sitemap" l.
Proof.
  intros Hfetch Hsitemap.
  destruct (audit_report_is_readable W api_key url0) as (Htech & Hpage & Hsec).
  destruct (readable_report_is_read _ Htech Hpage Hsec) as [l Hl].
  exists l. split; [exact Hl|].
  assert (Hlook : exists x,
             lookup (technical_seo (Auditor.audit_website W api_key url0))
               "xml_sitemap" "exists" VNone = Ok x
             /\ truthy x = false).
  { unfold Auditor.audit_website. rewrite Hfetch.
    unfold Auditor.run_modules, Auditor._audit_technical_seo.
    set (A := mk_auditor _ _ _ _). set (s0 := html_parser W (content resp)).
    pose proof (sitemap_entry W A s0) as Hentry.
    destruct (Auditor.run_checks (Auditor.technical_checks W A) [] s0) as [technical s1].
    destruct (Auditor._audit_on_page_seo s1) as [on_page s2].
    destruct (Auditor._audit_off_page_seo W A s2) as [off_page s3].
    destruct (Auditor._audit_user_experience s3) as [ux s4].
    destruct (Auditor._audit_security_performance A s4) as [security s5].
    cbn [technical_seo Scoring._calculate_scores fst] in *.
    unfold lookup. rewrite Hentry. subst A. cbn [self_url] in *.
    destruct (session_get W (urljoin W (Auditor.normalize_url url0) "/sitemap.xml"))
      as [r|e] eqn:Hget.
    - cbn zeta. pose proof (Hsitemap r eq_refl) as Hcode.
      apply Z.eqb_neq in Hcode. rewrite Hcode. eexists. split; reflexivity.
    - eexists. split; reflexivity. }
  destruct Hlook as (x & Hlook & Hfalse).
  now apply sitemap_test_is_reported with (Auditor.audit_website W api_key url0) x.
Qed.

Lemma unreachable_sitemap_is_recommended :
  exists l,
    generate_recommendations
      (Auditor.audit_website Examples.no_sitemap_world None "https://example.com") = Ok l
    /\ In "🟡 HIGH: Create and submit XML sitemap" l.
Proof.
  apply (missing_sitemap_is_recommended Examples.no_sitemap_world None
           "https://example.com" (Examples.page 200 "")).
  - reflexivity.
  - intros r Hr. vm_compute in Hr. discriminate Hr.
Defined.

(** The failure is real on a report that does not come from an audit:
    a title finding whose length is [None] stops the script. *)
Lemma unmeasured_title_stops_the_script :
  generate_recommendations MoreExamples.unmeasured_title_report
  = Raise "'<=' not supported between instances of 'int' and 'NoneType'".
Proof. reflexivity. Qed.

End DemoFacts.

(** ** Thresholds of the auditor and of the demonstration script *)

Module ThresholdFacts.

Import Auditor.

Lemma filter_length_le {X : Type} (f : X -> bool) (l : list X) :
  (length (List.filter f l) <= length l)%nat.
Proof.
  induction l as [|x l IH]; cbn; [lia|]. destruct (f x); cbn; lia.
Qed.

(** X28.  The security-headers Finding counts at most six headers and
    is good from four present on, while the test [security_score < 70]
    of [generate_recommendations] holds up to four present: with exactly
    four headers the Finding is good and the recommendation to implement
    security headers is still issued. *)
Theorem security_thresholds_differ (A : auditor) :
  exists n score,
    (n <= 6)%nat
    /\ Dict.get "headers_present" (_check_security_headers A) = Some (vnat n)
    /\ Dict.get "status" (_check_security_headers A)
       = Some (VStr (if (4 <=? n)%nat then "good" else "needs_improvement"))
    /\ Dict.get "security_score" (_check_security_headers A) = Some score
    /\ Demo.value_lt_int score 70 = Ok (n <? 5)%nat.
Proof.
  unfold _check_security_headers.
  set (n := length (List.filter is_truthy_str _)).
  assert (Hn : (n <= 6)%nat).
  { subst n. etransitivity; [apply filter_length_le|].
    unfold Dict.values. now rewrite !length_map. }
  clearbody n. exists n. eexists. split; [exact Hn|].
  split; [reflexivity|]. split; [reflexivity|]. split; [reflexivity|].
  do 7 (destruct n as [|n]; [vm_compute; reflexivity|]). lia.
Qed.

Lemma four_headers_good_yet_recommended :
  Dict.get "status" (_check_security_headers MoreExamples.four_headers_auditor)
  = Some (VStr "good")
  /\ Demo.lookup
       [("security_headers", VDict (_check_security_headers MoreExamples.four_headers_auditor))]
       "security_headers" "security_score" (VInt 0)
     = Ok (VFloat (667 # 10))
  /\ Demo.value_lt_int (VFloat (667 # 10)) 70 = Ok true.
Proof. split; [|split]; vm_compute; reflexivity. Qed.

Lemma Qle_bool_inject (a b : Z) : Qle_bool (inject_Z a) (inject_Z b) = (a <=? b)%Z.
Proof. unfold Qle_bool, inject_Z. cbn. now rewrite !Z.mul_1_r. Qed.

(** X29.  For the title and for the performance score the
    demonstration script applies the thresholds of the auditor: its test
    [30 <= length <= 60] holds exactly when the title Finding is good,
    and its test [performance_score < 70] exactly when the performance
    Finding is not. *)
Theorem title_and_performance_thresholds_agree (A : auditor) (s : soup) :
  (exists d len status,
     fst (title_tags s) = Ok (VDict d)
     /\ Dict.get "length" d = Some len
     /\ Dict.get "status" d = Some status
     /\ Demo.in_title_range len = Ok (Scoring.value_is_str status "good"))
  /\ (exists score status,
        Dict.get "performance_score" (_check_performance_enhancements A s) = Some score
        /\ Dict.get "status" (_check_performance_enhancements A s) = Some status
        /\ Demo.value_lt_int score 70 = Ok (negb (Scoring.value_is_str status "good"))).
Proof.
  split.
  - unfold title_tags, reads. cbn [fst].
    set (n := String.length _). clearbody n.
    eexists. eexists. eexists. split; [reflexivity|].
    split; [reflexivity|]. split; [reflexivity|].
    unfold Demo.in_title_range, Demo.int_le_value, Demo.value_le_int, vnat, in_range.
    cbn [Demo.as_number Demo.and_then]. rewrite !Qle_bool_inject.
    destruct (Z.leb_spec 30 (Z.of_nat n)) as [Hlo|Hlo];
      destruct (Nat.leb_spec 30 n) as [Hlo'|Hlo']; try lia; cbn [andb];
      [|reflexivity].
    destruct (Z.leb_spec (Z.of_nat n) 60) as [Hhi|Hhi];
      destruct (Nat.leb_spec n 60) as [Hhi'|Hhi']; try lia; reflexivity.
  - unfold _check_performance_enhancements.
    cbv zeta.
    match goal with
    | |- context [("performance_score", VInt ?sc)] => set (score := sc)
    end.
    clearbody score.
    eexists. eexists. split; [reflexivity|]. split; [reflexivity|].
    unfold Demo.value_lt_int, Qltb. cbn [Demo.as_number]. rewrite Qle_bool_inject.
    destruct (Z.leb_spec 70 score); reflexivity.
Qed.

End ThresholdFacts.
